(** * VITON-HD Flask service (viton_service/app.py): a shallow embedding

    The service keeps one global, [model], and talks to the outside world
    through library calls (the file system, torch, PIL, numpy).  The
    embedding threads the global and a log of the library calls through a
    small state-and-exception monad; the libraries themselves are a record
    of oracles, [World], so that every statement below holds for whatever
    the libraries answer.  float32 arithmetic is kept abstract ([F32]):
    the theorems are about which operations are applied, in which order
    and on which shapes, not about rounding. *)

From Stdlib Require Import String Ascii List Bool Arith NArith ZArith QArith Lia.
Import ListNotations.
Set Warnings "-register-all".
Local Close Scope Q_scope.
Local Open Scope string_scope.
Local Open Scope list_scope.

(** ** Python values the service handles *)

(** Exceptions (subclasses of [Exception] only: what [except Exception]
    catches).  [exn_str] is what [str(e)] returns. *)
Inductive ExnClass : Type :=
| FileNotFoundError
| ValueError
| IndexError
| TypeError
| RuntimeError
| OtherError (name : string).

Record Exn : Type := mkExn { exn_class : ExnClass; exn_str : string }.

Inductive result (A : Type) : Type :=
| Ok (a : A)
| Raise (e : Exn).
Arguments Ok {A} a.
Arguments Raise {A} e.

(** What [jsonify] is given. *)
Inductive JSON : Type :=
| JBool (b : bool)
| JStr (s : string)
| JList (l : list JSON)
| JDict (kv : list (string * JSON)).

Record Response : Type := mkResponse { status : nat; body : JSON }.

(** [jsonify(d)] alone is a 200 response; [jsonify(d), code] sets the code. *)
Definition jsonify (d : list (string * JSON)) : Response := mkResponse 200 (JDict d).
Definition jsonify_status (d : list (string * JSON)) (code : nat) : Response :=
  mkResponse code (JDict d).

Definition dict_keys (j : JSON) : list string :=
  match j with JDict kv => map fst kv | _ => [] end.

Fixpoint dict_get (k : string) (kv : list (string * JSON)) : option JSON :=
  match kv with
  | [] => None
  | (k', v) :: rest => if String.eqb k k' then Some v else dict_get k rest
  end.

Definition json_field (k : string) (j : JSON) : option JSON :=
  match j with JDict kv => dict_get k kv | _ => None end.

(** ** request.files *)

(** An uploaded file: its name and the bytes [read()] returns. *)
Record FileStorage : Type := mkFile { filename : string; content : list Byte.byte }.

(** [request.files] is a MultiDict: keys may repeat, lookup takes the
    first. *)
Definition Files := list (string * FileStorage).

Fixpoint files_contains (k : string) (fs : Files) : bool :=
  match fs with
  | [] => false
  | (k', _) :: rest => String.eqb k k' || files_contains k rest
  end.

Fixpoint files_getitem (k : string) (fs : Files) : option FileStorage :=
  match fs with
  | [] => None
  | (k', f) :: rest => if String.eqb k k' then Some f else files_getitem k rest
  end.

(** ** Strings and paths *)

Definition endswith (s suffix : string) : bool :=
  (String.length suffix <=? String.length s)%nat &&
  String.eqb (substring (String.length s - String.length suffix)
                        (String.length suffix) s) suffix.

(** [os.path.join(a, b)] for a relative [b] (both uses in the service join
    a fixed relative name). *)
Definition os_path_join (a b : string) : string :=
  if (String.eqb a "" || endswith a "/") then a ++ b else a ++ "/" ++ b.

(** ** base64.b64encode *)

Definition b64_alphabet : string :=
  "ABCDEFGHIJKLMNOPQRSTUVWXYZabcdefghijklmnopqrstuvwxyz0123456789+/".

Definition b64_char (n : N) : ascii :=
  match String.get (N.to_nat n) b64_alphabet with
  | Some c => c
  | None => "="%char
  end.

Fixpoint b64encode (bs : list Byte.byte) : string :=
  match bs with
  | [] => ""
  | [a] =>
      let n := (Byte.to_N a * 65536)%N in
      String (b64_char (N.shiftr n 18))
        (String (b64_char (N.land (N.shiftr n 12) 63)) "==")
  | [a; b] =>
      let n := (Byte.to_N a * 65536 + Byte.to_N b * 256)%N in
      String (b64_char (N.shiftr n 18))
        (String (b64_char (N.land (N.shiftr n 12) 63))
           (String (b64_char (N.land (N.shiftr n 6) 63)) "="))
  | a :: b :: c :: rest =>
      let n := (Byte.to_N a * 65536 + Byte.to_N b * 256 + Byte.to_N c)%N in
      String (b64_char (N.shiftr n 18))
        (String (b64_char (N.land (N.shiftr n 12) 63))
           (String (b64_char (N.land (N.shiftr n 6) 63))
              (String (b64_char (N.land n 63)) (b64encode rest))))
  end.

(** The reference decoder of RFC 4648, against which [b64encode] is
    checked: four characters of the alphabet give three bytes, and the
    last group may be padded with one or two [=]. *)
Fixpoint b64_find (c : ascii) (s : string) (i : N) : option N :=
  match s with
  | "" => None
  | String d r => if Ascii.eqb c d then Some i else b64_find c r (N.succ i)
  end.

Definition b64_index (c : ascii) : option N := b64_find c b64_alphabet 0%N.

Definition byte_of_N (n : N) : Byte.byte :=
  match Byte.of_N n with Some b => b | None => Byte.x00 end.

Fixpoint b64decode (s : string) : option (list Byte.byte) :=
  match s with
  | "" => Some []
  | String c1 (String c2 (String c3 (String c4 rest))) =>
      match b64_index c1, b64_index c2 with
      | Some i1, Some i2 =>
          if Ascii.eqb c3 "=" then
            if Ascii.eqb c4 "=" && String.eqb rest ""
            then Some [byte_of_N (i1 * 4 + i2 / 16)]
            else None
          else
            match b64_index c3 with
            | None => None
            | Some i3 =>
                if Ascii.eqb c4 "=" then
                  if String.eqb rest ""
                  then Some [byte_of_N (i1 * 4 + i2 / 16);
                             byte_of_N ((i2 mod 16) * 16 + i3 / 4)]
                  else None
                else
                  match b64_index c4, b64decode rest with
                  | Some i4, Some bs =>
                      Some (byte_of_N (i1 * 4 + i2 / 16)
                            :: byte_of_N ((i2 mod 16) * 16 + i3 / 4)
                            :: byte_of_N ((i3 mod 4) * 64 + i4) :: bs)
                  | _, _ => None
                  end
            end
      | _, _ => None
      end
  | _ => None
  end%N.

Example b64encode_Man :
  b64encode [Byte.x4d; Byte.x61; Byte.x6e] = "TWFu".
Proof. reflexivity. Qed.

Example b64encode_Ma :
  b64encode [Byte.x4d; Byte.x61] = "TWE=".
Proof. reflexivity. Qed.

Example endswith_pkl : endswith "gen.pkl" ".pkl" = true /\ endswith "pkl" ".pkl" = false.
Proof. split; reflexivity. Qed.

Example os_path_join_default :
  os_path_join (os_path_join "./VITON-HD" "checkpoints") "gen.pkl"
  = "./VITON-HD/checkpoints/gen.pkl".
Proof. reflexivity. Qed.

(** ** Arrays and tensors *)

(** A numpy array or torch tensor: its shape and its elements by
    multi-index.  [permute], [view], [unsqueeze] and indexing are views in
    torch; here they re-index [elem]. *)
Record Tensor (A : Type) : Type := mkTensor { shape : list nat; elem : list nat -> A }.
Arguments mkTensor {A} shape elem.
Arguments shape {A} t.
Arguments elem {A} t idx.

Definition tensor_map {A B : Type} (f : A -> B) (t : Tensor A) : Tensor B :=
  mkTensor (shape t) (fun idx => f (elem t idx)).

(** [torch.tensor([...])] of a flat list. *)
Definition tensor_of_list {A : Type} (d : A) (l : list A) : Tensor A :=
  mkTensor [length l] (fun idx => nth (hd 0%nat idx) l d).

Definition numel (s : list nat) : nat := fold_right Nat.mul 1%nat s.

(** Row-major offset of a multi-index, and back. *)
Definition ravel (s idx : list nat) : nat :=
  fold_left (fun acc di => (acc * fst di + snd di)%nat) (combine s idx) 0%nat.

Fixpoint unravel_rev (s_rev : list nat) (k : nat) : list nat :=
  match s_rev with
  | [] => []
  | d :: r => (k mod d)%nat :: unravel_rev r (k / d)%nat
  end.

Definition unravel (s : list nat) (k : nat) : list nat := rev (unravel_rev (rev s) k).

(** [t.view(new_shape)] of a contiguous tensor. *)
Definition view {A : Type} (new_shape : list nat) (t : Tensor A) : result (Tensor A) :=
  if (numel new_shape =? numel (shape t))%nat
  then Ok (mkTensor new_shape (fun idx => elem t (unravel (shape t) (ravel new_shape idx))))
  else Raise (mkExn RuntimeError "shape is invalid for input size").

Fixpoint index_of (j : nat) (l : list nat) : nat :=
  match l with
  | [] => 0%nat
  | x :: r => if (x =? j)%nat then 0%nat else S (index_of j r)
  end.

Definition is_permutation (dims : list nat) (n : nat) : bool :=
  (length dims =? n)%nat &&
  forallb (fun j => existsb (Nat.eqb j) dims) (seq 0 n).

(** [t.permute(dims)]: dimension [i] of the result is dimension
    [dims[i]] of [t]. *)
Definition permute {A : Type} (dims : list nat) (t : Tensor A) : result (Tensor A) :=
  let n := length (shape t) in
  if is_permutation dims n
  then Ok (mkTensor (map (fun d => nth d (shape t) 0%nat) dims)
             (fun idx => elem t (map (fun j => nth (index_of j dims) idx 0%nat) (seq 0 n))))
  else Raise (mkExn RuntimeError "permute: dims do not match the tensor").

(** [t.unsqueeze(0)] and [t[0]]. *)
Definition unsqueeze0 {A : Type} (t : Tensor A) : Tensor A :=
  mkTensor (1%nat :: shape t) (fun idx => elem t (tl idx)).

Definition index0 {A : Type} (t : Tensor A) : result (Tensor A) :=
  match shape t with
  | [] => Raise (mkExn IndexError "invalid index of a 0-dim tensor")
  | d :: s =>
      if (d =? 0)%nat
      then Raise (mkExn IndexError "index 0 is out of bounds for dimension 0 with size 0")
      else Ok (mkTensor s (fun idx => elem t (0%nat :: idx)))
  end.

(** Broadcasting, on shapes aligned at their last dimension. *)
Fixpoint broadcast_rev (a b : list nat) : option (list nat) :=
  match a, b with
  | [], _ => Some b
  | _, [] => Some a
  | x :: a', y :: b' =>
      match broadcast_rev a' b' with
      | None => None
      | Some r =>
          if (x =? y)%nat then Some (x :: r)
          else if (x =? 1)%nat then Some (y :: r)
          else if (y =? 1)%nat then Some (x :: r)
          else None
      end
  end.

Definition broadcast_shapes (a b : list nat) : option (list nat) :=
  option_map (@rev nat) (broadcast_rev (rev a) (rev b)).

(** The index into an operand of shape [s] for index [idx] of the
    broadcast result: the trailing [length s] positions, 0 where the
    operand has size 1. *)
Definition operand_index (s idx : list nat) : list nat :=
  map (fun di => if (fst di =? 1)%nat then 0%nat else snd di)
      (combine s (skipn (length idx - length s) idx)).

Definition tensor_binop {A : Type} (op : A -> A -> A) (a b : Tensor A) : result (Tensor A) :=
  match broadcast_shapes (shape a) (shape b) with
  | Some s =>
      Ok (mkTensor s (fun idx => op (elem a (operand_index (shape a) idx))
                                    (elem b (operand_index (shape b) idx))))
  | None => Raise (mkExn RuntimeError "the sizes of the tensors must match")
  end.

Example permute_201_shape :
  option_map (@shape nat)
    (match permute [2; 0; 1] (mkTensor [768; 1024; 3] (fun _ => 0)) with
     | Ok t => Some t | Raise _ => None end)%nat
  = Some [3; 768; 1024]%nat.
Proof. reflexivity. Qed.

Example broadcast_chw : broadcast_shapes [3; 768; 1024]%nat [3; 1; 1]%nat = Some [3; 768; 1024]%nat.
Proof. reflexivity. Qed.

Example broadcast_mismatch : broadcast_shapes [3; 4]%nat [2; 4]%nat = None.
Proof. reflexivity. Qed.

(** ** float32 arithmetic

    The numeric type of numpy's and torch's float32 arrays, with the
    operations the service applies elementwise.  [f32_lit q] is the
    float32 nearest to the decimal literal [q]; [f32_trunc] is the
    float-to-integer conversion behind [astype]. *)
Class Float32 (F : Type) : Type := {
  f32_of_u8 : Z -> F;
  f32_lit : Q -> F;
  f32_add : F -> F -> F;
  f32_sub : F -> F -> F;
  f32_mul : F -> F -> F;
  f32_div : F -> F -> F;
  f32_max : F -> F -> F;
  f32_min : F -> F -> F;
  f32_trunc : F -> Z
}.

(** [np.clip(x, lo, hi)] is [minimum(maximum(x, lo), hi)]. *)
Definition np_clip {F : Type} `{Float32 F} (x lo hi : F) : F :=
  f32_min (f32_max x lo) hi.

(** [x.astype(np.uint8)] on one element: an 8-bit unsigned value. *)
Definition astype_uint8 {F : Type} `{Float32 F} (x : F) : Z := (f32_trunc x) mod 256.

(** ** PIL images *)

(** [img_size] is PIL's (width, height); [px y x c] is band [c] of the
    pixel in row [y], column [x], an 8-bit value. *)
Record Image : Type := mkImage {
  img_size : nat * nat;
  img_bands : nat;
  px : nat -> nat -> nat -> Z
}.

(** [np.array(img, dtype=np.float32)]: shape (height, width, bands). *)
Definition np_array_f32 {F : Type} `{Float32 F} (img : Image) : Tensor F :=
  mkTensor [snd (img_size img); fst (img_size img); img_bands img]
    (fun idx =>
       match idx with
       | [y; x; c] => f32_of_u8 (px img y x c)
       | _ => f32_of_u8 0
       end).

(** ** The process and its environment *)

Inductive Device : Type := cuda | cpu.

Definition str_device (d : Device) : string :=
  match d with cuda => "cuda" | cpu => "cpu" end.

(** Library calls, as they are logged when they are made;
    [EvGenerator] records whether the constructor returned an object. *)
Inductive Event : Type :=
| EvPathExists (path : string)
| EvListdir (path : string)
| EvGenerator (constructed : bool)
| EvTorchLoad (path : string)
| EvLoadStateDict
| EvTo
| EvEval
| EvImageOpen (data : list Byte.byte)
| EvResize (size : nat * nat)
| EvForward (shape1 shape2 : list nat)
| EvSavePng (size : nat * nat).

Definition is_preprocessing (e : Event) : bool :=
  match e with EvImageOpen _ | EvResize _ => true | _ => false end.

Definition is_inference (e : Event) : bool :=
  match e with EvForward _ _ => true | _ => false end.

Definition is_image_open (e : Event) : bool :=
  match e with EvImageOpen _ => true | _ => false end.

Definition is_generator_call (e : Event) : bool :=
  match e with EvGenerator _ => true | _ => false end.

Definition is_torch_load (e : Event) : bool :=
  match e with EvTorchLoad _ => true | _ => false end.

Definition is_save (e : Event) : bool :=
  match e with EvSavePng _ => true | _ => false end.

Definition is_construction (e : Event) : bool :=
  match e with EvGenerator true => true | _ => false end.

Definition is_weight_load (e : Event) : bool :=
  match e with EvTorchLoad _ | EvLoadStateDict => true | _ => false end.

Definition is_model_load (e : Event) : bool :=
  match e with
  | EvGenerator _ | EvTorchLoad _ | EvLoadStateDict | EvTo | EvEval => true
  | _ => false
  end.

Definition count (p : Event -> bool) (l : list Event) : nat := length (filter p l).

(** ** Statements that read and write the state and may raise

    A Python statement run in state [st] ends normally with a value or
    raises, and in both cases leaves a state behind: what was assigned
    before a [raise] stays assigned. *)
Definition M (S A : Type) : Type := S -> result A * S.

Definition ret {S A : Type} (a : A) : M S A := fun st => (Ok a, st).
Definition raise {S A : Type} (e : Exn) : M S A := fun st => (Raise e, st).
Definition bind {S A B : Type} (m : M S A) (k : A -> M S B) : M S B :=
  fun st =>
    match m st with
    | (Ok a, st') => k a st'
    | (Raise e, st') => (Raise e, st')
    end.
Definition try_except {S A : Type} (m : M S A) (handler : Exn -> M S A) : M S A :=
  fun st =>
    match m st with
    | (Ok a, st') => (Ok a, st')
    | (Raise e, st') => handler e st'
    end.
Definition lift {S A : Type} (r : result A) : M S A := fun st => (r, st).
Definition check {S : Type} (o : option Exn) : M S unit :=
  match o with Some e => raise e | None => ret tt end.

Declare Scope py_scope.
Delimit Scope py_scope with py.
Notation "x <- m ;; k" := (bind m (fun x => k))
  (at level 100, m at next level, right associativity) : py_scope.
Notation "m ;; k" := (bind m (fun _ => k))
  (at level 100, right associativity) : py_scope.

Section Service.

Context {F : Type} {F32 : Float32 F} {Checkpoint : Type}.

(** The [Generator] object: an [nn.Module] is mutable; the fields are what
    [load_state_dict], [to] and [eval] change.  A fresh module has no
    loaded weights, is on the CPU and is in training mode. *)
Record Generator : Type := mkGenerator {
  gen_args : nat * nat * nat;
  state_dict : option Checkpoint;
  gen_device : Device;
  training : bool
}.

(** What the libraries and the machine answer.
    - [VITON_HD_PATH]: [os.getenv('VITON_HD_PATH', './VITON-HD')];
    - [DEVICE]: the module-level constant; [cuda_is_available]:
      [torch.cuda.is_available()] when asked;
    - [Generator_init]: [Some e] when [Generator(4, 4, 3)] raises [e]
      (a [NameError] when the import of [networks] failed);
    - [torch_load], [load_state_dict_check], [module_to]: the three
      steps after construction, each of which may raise;
    - [Image_open]: [Image.open(io.BytesIO(data)).convert('RGB')], size
      and pixels;
    - [lanczos]: the pixels [Image.resize(size, Image.LANCZOS)] computes;
    - [forward]: the network's forward pass, a black box;
    - [fromarray_accepts]: whether PIL has a mode for an (H, W, C) uint8
      array, by C;
    - [save_png]: [img.save(buffer, format="PNG")], the bytes written. *)
Record World : Type := mkWorld {
  VITON_HD_PATH : string;
  DEVICE : Device;
  cuda_is_available : bool;
  os_path_exists : string -> bool;
  os_listdir : string -> result (list string);
  Generator_init : nat -> nat -> nat -> option Exn;
  torch_load : string -> Device -> result Checkpoint;
  load_state_dict_check : Checkpoint -> option Exn;
  module_to : Device -> option Exn;
  Image_open : list Byte.byte -> result (nat * nat * (nat -> nat -> nat -> Z));
  lanczos : nat * nat -> Image -> nat -> nat -> nat -> Z;
  forward : Generator -> Tensor F -> Tensor F -> result (Tensor F);
  fromarray_accepts : nat -> bool;
  save_png : Image -> result (list Byte.byte)
}.

Definition CHECKPOINT_DIR (w : World) : string :=
  os_path_join (VITON_HD_PATH w) "checkpoints".

(** The process state: the global [model] and the log of library calls,
    newest first. *)
Record State : Type := mkState { model : option Generator; log : list Event }.

Definition initial_state : State := mkState None [].

Definition emit (ev : Event) : M State unit :=
  fun st => (Ok tt, mkState (model st) (ev :: log st)).
Definition get_model : M State (option Generator) := fun st => (Ok (model st), st).
Definition set_model (g : Generator) : M State unit :=
  fun st => (Ok tt, mkState (Some g) (log st)).

Local Open Scope py_scope.

(** A method call on the global: [model.method(...)]. *)
Definition model_method (name : string) (f : Generator -> Generator) : M State unit :=
  m <- get_model ;;
  match m with
  | Some g => set_model (f g)
  | None => raise (mkExn (OtherError "AttributeError")
                     ("'NoneType' object has no attribute '" ++ name ++ "'"))
  end.

(** ** load_model *)

(** The [print] calls are left out; the handler of the outer [try] only
    prints and re-raises.  A [load_state_dict] that raises is taken to
    leave the module as it was. *)
Definition load_model (w : World) : M State (option Generator) :=
  try_except
    (m <- get_model ;;
     match m with
     | None =>
         let checkpoint_path := os_path_join (CHECKPOINT_DIR w) "gen.pkl" in
         emit (EvPathExists checkpoint_path) ;;
         (if negb (os_path_exists w checkpoint_path)
          then raise (mkExn FileNotFoundError
                        ("Model checkpoint not found at " ++ checkpoint_path))
          else ret tt) ;;
         (match Generator_init w 4 4 3 with
          | Some e => emit (EvGenerator false) ;; raise e
          | None => emit (EvGenerator true) ;;
                    set_model (mkGenerator (4, 4, 3) None cpu true)
          end) ;;
         emit (EvTorchLoad checkpoint_path) ;;
         checkpoint <- lift (torch_load w checkpoint_path (DEVICE w)) ;;
         emit EvLoadStateDict ;;
         check (load_state_dict_check w checkpoint) ;;
         model_method "load_state_dict"
           (fun g => mkGenerator (gen_args g) (Some checkpoint) (gen_device g) (training g)) ;;
         emit EvTo ;;
         check (module_to w (DEVICE w)) ;;
         model_method "to"
           (fun g => mkGenerator (gen_args g) (state_dict g) (DEVICE w) (training g)) ;;
         emit EvEval ;;
         model_method "eval"
           (fun g => mkGenerator (gen_args g) (state_dict g) (gen_device g) false)
     | Some _ => ret tt
     end ;;
     get_model)
    (fun e => raise e).

(** ** preprocess_image *)

(** [img.resize(size, Image.LANCZOS)]: PIL allocates the result with the
    requested size and the bands of [img]; the filter gives the pixels. *)
Definition Image_resize (w : World) (size : nat * nat) (img : Image) : Image :=
  mkImage size (img_bands img) (lanczos w size img).

Definition imagenet_mean : list F := [f32_lit 0.485%Q; f32_lit 0.456%Q; f32_lit 0.406%Q].
Definition imagenet_std : list F := [f32_lit 0.229%Q; f32_lit 0.224%Q; f32_lit 0.225%Q].

(** [.to(DEVICE)] on the resulting tensor moves it and keeps shape and
    values; it is not logged. *)
Definition preprocess_image (w : World) (image_data : list Byte.byte) : M State (Tensor F) :=
  try_except
    (emit (EvImageOpen image_data) ;;
     opened <- lift (Image_open w image_data) ;;
     let img := mkImage (fst opened) 3 (snd opened) in
     emit (EvResize (1024, 768)%nat) ;;
     let img := Image_resize w (1024, 768)%nat img in
     let img_array := tensor_map (fun x => f32_div x (f32_lit 255%Q)) (np_array_f32 img) in
     img_tensor <- lift (permute [2; 0; 1]%nat img_array) ;;
     mean <- lift (view [3; 1; 1]%nat (tensor_of_list (f32_lit 0%Q) imagenet_mean)) ;;
     std <- lift (view [3; 1; 1]%nat (tensor_of_list (f32_lit 0%Q) imagenet_std)) ;;
     centred <- lift (tensor_binop f32_sub img_tensor mean) ;;
     img_tensor <- lift (tensor_binop f32_div centred std) ;;
     ret (unsqueeze0 img_tensor))
    (fun e => raise (mkExn ValueError ("Error preprocessing image: " ++ exn_str e))).

(** ** health_check *)

Definition is_not_None {A : Type} (o : option A) : bool :=
  match o with Some _ => true | None => false end.

Definition health_check (w : World) (st : State) : Response * State :=
  (jsonify [("status", JStr "healthy");
            ("device", JStr (str_device (DEVICE w)));
            ("cuda_available", JBool (cuda_is_available w));
            ("model_loaded", JBool (is_not_None (model st)))],
   st).

(** ** generate_tryon *)

(** [request.files[key]]. *)
Definition request_file (key : string) (files : Files) : result FileStorage :=
  match files_getitem key files with
  | Some f => Ok f
  | None => Raise (mkExn (OtherError "BadRequestKeyError") key)
  end.

(** [model(person_image, clothing_image)] on the global. *)
Definition call_model (w : World) (a b : Tensor F) : M State (Tensor F) :=
  m <- get_model ;;
  match m with
  | Some g => emit (EvForward (shape a) (shape b)) ;; lift (forward w g a b)
  | None => raise (mkExn TypeError "'NoneType' object is not callable")
  end.

(** [(x * 0.5 + 0.5) * 255], then [np.clip(., 0, 255).astype(np.uint8)]. *)
Definition denormalize (x : F) : F :=
  f32_mul (f32_add (f32_mul x (f32_lit 0.5%Q)) (f32_lit 0.5%Q)) (f32_lit 255%Q).

Definition to_pixel (x : F) : Z := astype_uint8 (np_clip x (f32_lit 0%Q) (f32_lit 255%Q)).

(** [Image.fromarray] of a uint8 array: (H, W, C) with a channel count PIL
    has a mode for, or (H, W). *)
Definition Image_fromarray (w : World) (a : Tensor Z) : result Image :=
  match shape a with
  | [h; wd; c] =>
      if fromarray_accepts w c
      then Ok (mkImage (wd, h) c (fun y x k => elem a [y; x; k]))
      else Raise (mkExn TypeError "Cannot handle this data type")
  | [h; wd] => Ok (mkImage (wd, h) 1 (fun y x _ => elem a [y; x]))
  | _ => Raise (mkExn ValueError "Too many dimensions")
  end.

Definition missing_files_response : Response :=
  jsonify_status
    [("error", JStr "Missing required files: person_image, clothing_image")] 400.

Definition success_response (img_base64 : string) : Response :=
  jsonify [("success", JBool true);
           ("result_image", JStr ("data:image/png;base64," ++ img_base64));
           ("message", JStr "Try-on generated successfully")].

Definition error_response (e : Exn) : Response :=
  jsonify_status [("success", JBool false); ("error", JStr (exn_str e))] 500.

(** The post-processing block of [generate_tryon], from the network's
    output to the image that is saved. *)
Definition postprocess (w : World) (output : Tensor F) : result Image :=
  match index0 output with
  | Raise e => Raise e
  | Ok out0 =>
      match permute [1; 2; 0]%nat out0 with
      | Raise e => Raise e
      | Ok output_np =>
          let output_np := tensor_map denormalize output_np in
          let output_np := tensor_map to_pixel output_np in
          Image_fromarray w output_np
      end
  end.

(** The body of the [try] in [generate_tryon]. *)
Definition generate_tryon_body (w : World) (files : Files) : M State Response :=
  m <- get_model ;;
  (match m with
   | None => load_model w ;; ret tt
   | Some _ => ret tt
   end) ;;
  if negb (files_contains "person_image" files)
     || negb (files_contains "clothing_image" files)
  then ret missing_files_response
  else
    person_file <- lift (request_file "person_image" files) ;;
    clothing_file <- lift (request_file "clothing_image" files) ;;
    person_image <- preprocess_image w (content person_file) ;;
    clothing_image <- preprocess_image w (content clothing_file) ;;
    output <- call_model w person_image clothing_image ;;
    result_image <- lift (postprocess w output) ;;
    emit (EvSavePng (img_size result_image)) ;;
    buffered <- lift (save_png w result_image) ;;
    let img_base64 := b64encode buffered in
    ret (success_response img_base64).

Definition generate_tryon (w : World) (files : Files) (st : State) : Response * State :=
  match generate_tryon_body w files st with
  | (Ok r, st') => (r, st')
  | (Raise e, st') => (error_response e, st')
  end.

(** ** list_models *)

Definition list_models_body (w : World) : M State Response :=
  emit (EvPathExists (CHECKPOINT_DIR w)) ;;
  models <- (if os_path_exists w (CHECKPOINT_DIR w)
             then emit (EvListdir (CHECKPOINT_DIR w)) ;;
                  names <- lift (os_listdir w (CHECKPOINT_DIR w)) ;;
                  ret (filter (fun f => endswith f ".pkl") names)
             else ret []) ;;
  ret (jsonify [("available_models", JList (map JStr models));
                ("selected_model", JStr "gen.pkl")]).

Definition list_models (w : World) (st : State) : Response * State :=
  match list_models_body w st with
  | (Ok r, st') => (r, st')
  | (Raise e, st') => (jsonify_status [("error", JStr (exn_str e))] 500, st')
  end.

(** ** The process: start-up, then requests one at a time *)

(** The [__main__] block: [load_model()], any exception printed and
    dropped. *)
Definition startup (w : World) (st : State) : State := snd (load_model w st).

Inductive Request : Type :=
| GET_health
| POST_api_tryon (files : Files)
| GET_api_models.

Definition handle (w : World) (r : Request) (st : State) : Response * State :=
  match r with
  | GET_health => health_check w st
  | POST_api_tryon files => generate_tryon w files st
  | GET_api_models => list_models w st
  end.

(** Requests served in sequence, each in the world of its moment; the
    responses come back in order. *)
Fixpoint serve (rs : list (World * Request)) (st : State) : list Response * State :=
  match rs with
  | [] => ([], st)
  | (w, r) :: rest =>
      let (resp, st1) := handle w r st in
      let (resps, st2) := serve rest st1 in
      (resp :: resps, st2)
  end.

(** Two parts of the body of [generate_tryon], named for the proofs: the
    lazy load at its head, and what follows the validation. *)
Definition ensure_model (w : World) : M State unit :=
  m <- get_model ;;
  match m with
  | None => load_model w ;; ret tt
  | Some _ => ret tt
  end.

Definition tryon_pipeline (w : World) (files : Files) : M State Response :=
  person_file <- lift (request_file "person_image" files) ;;
  clothing_file <- lift (request_file "clothing_image" files) ;;
  person_image <- preprocess_image w (content person_file) ;;
  clothing_image <- preprocess_image w (content clothing_file) ;;
  output <- call_model w person_image clothing_image ;;
  result_image <- lift (postprocess w output) ;;
  emit (EvSavePng (img_size result_image)) ;;
  buffered <- lift (save_png w result_image) ;;
  let img_base64 := b64encode buffered in
  ret (success_response img_base64).

(** Every [Generator] ever constructed is the one bound to [model]. *)
Definition constructed_once (st : State) : Prop :=
  count is_construction (log st) = if is_not_None (model st) then 1 else 0.

(** The library calls of one try-on request when every one of them is
    reached, newest first like the log: the calls of a load ([constructed]
    is whether the constructor returned), made only when no model is
    bound, then the calls of the pipeline on the uploads [pf] and [cf]
    ([size] is the size of the image that is saved). *)
Definition load_calls (w : World) (constructed : bool) : list Event :=
  [EvEval; EvTo; EvLoadStateDict;
   EvTorchLoad (os_path_join (CHECKPOINT_DIR w) "gen.pkl");
   EvGenerator constructed;
   EvPathExists (os_path_join (CHECKPOINT_DIR w) "gen.pkl")].

Definition pipeline_calls (pf cf : FileStorage) (size : nat * nat) : list Event :=
  [EvSavePng size;
   EvForward [1; 3; 768; 1024] [1; 3; 768; 1024];
   EvResize (1024, 768); EvImageOpen (content cf);
   EvResize (1024, 768); EvImageOpen (content pf)].

Definition request_calls (w : World) (st : State) (pf cf : FileStorage)
    (constructed : bool) (size : nat * nat) : list Event :=
  pipeline_calls pf cf size
  ++ (if is_not_None (model st) then [] else load_calls w constructed).

(** The events logged between [st] and a later state [st']. *)
Definition new_events (st st' : State) : list Event :=
  firstn (length (log st') - length (log st)) (log st').

(** A required multipart field is absent. *)
Definition field_absent (files : Files) : bool :=
  negb (files_contains "person_image" files)
  || negb (files_contains "clothing_image" files).

(** The model is there for the request: already bound, or [load_model]
    returns normally in this world. *)
Definition model_available (w : World) (st : State) : bool :=
  match fst (load_model w st) with Ok _ => true | Raise _ => false end.

(** The weights of the global model have been loaded. *)
Definition weights_loaded (st : State) : bool :=
  match model st with
  | Some g => is_not_None (state_dict g)
  | None => false
  end.

(** A statement logs at most [n] events that satisfy [p]; a statement
    leaves the global [model] as it found it. *)
Definition emits {A : Type} (p : Event -> bool) (n : nat) (m : M State A) : Prop :=
  forall st r st', m st = (r, st') ->
    exists evs, log st' = evs ++ log st /\ count p evs <= n.

Definition keeps_model {A : Type} (m : M State A) : Prop :=
  forall st r st', m st = (r, st') -> model st' = model st.

(** A bound model that is in eval mode has its weights: [eval()] is the
    last step of a load.  The constructor arguments are those of
    [load_model]. *)
Definition model_consistent (st : State) : Prop :=
  match model st with
  | None => True
  | Some g =>
      gen_args g = (4, 4, 3)
      /\ (training g = false -> is_not_None (state_dict g) = true)
  end.

End Service.

(** ** Sample worlds

    Small concrete worlds on which the service runs by computation: exact
    rational arithmetic in place of float32, a toy image decoder (one row,
    one pixel per byte), nearest-neighbour resampling, and a network that
    returns its first input. *)
Module Sample.

#[export] Instance exact_arith : Float32 Q := {|
  f32_of_u8 := inject_Z;
  f32_lit := fun q => q;
  f32_add := Qplus;
  f32_sub := Qminus;
  f32_mul := Qmult;
  f32_div := Qdiv;
  f32_max := fun a b => if Qle_bool a b then b else a;
  f32_min := fun a b => if Qle_bool a b then a else b;
  f32_trunc := fun q => Z.quot (Qnum q) (Zpos (Qden q))
|}.

Definition decode_toy (data : list Byte.byte)
  : result (nat * nat * (nat -> nat -> nat -> Z)) :=
  match data with
  | [] => Raise (mkExn (OtherError "UnidentifiedImageError") "cannot identify image file")
  | _ => Ok ((length data, 1), fun _ x _ => Z.of_N (Byte.to_N (nth x data Byte.x00)))
  end.

Definition nearest (size : nat * nat) (img : Image) (y x c : nat) : Z :=
  px img (y * snd (img_size img) / snd size) (x * fst (img_size img) / fst size) c.

Definition w_ok : @World Q string :=
  mkWorld "./VITON-HD" cpu false
    (fun _ => true)
    (fun _ => Ok ["gen.pkl"; "notes.txt"; "seg.pkl"])
    (fun _ _ _ => None)
    (fun _ _ => Ok "weights")
    (fun _ => None)
    (fun _ => None)
    decode_toy
    nearest
    (fun _ a _ => Ok a)
    (fun c => (c =? 3)%nat || (c =? 4)%nat)
    (fun _ => Ok [Byte.x89; Byte.x50; Byte.x4e; Byte.x47]).

Definition with_fs (w : @World Q string) (exists_ : string -> bool) : @World Q string :=
  mkWorld (VITON_HD_PATH w) (DEVICE w) (cuda_is_available w) exists_ (os_listdir w)
    (Generator_init w) (torch_load w) (load_state_dict_check w) (module_to w)
    (Image_open w) (lanczos w) (forward w) (fromarray_accepts w) (save_png w).

Definition with_torch_load (w : @World Q string)
    (load : string -> Device -> result string) : @World Q string :=
  mkWorld (VITON_HD_PATH w) (DEVICE w) (cuda_is_available w) (os_path_exists w)
    (os_listdir w) (Generator_init w) load (load_state_dict_check w) (module_to w)
    (Image_open w) (lanczos w) (forward w) (fromarray_accepts w) (save_png w).

Definition with_forward (w : @World Q string)
    (fwd : @Generator string -> Tensor Q -> Tensor Q -> result (Tensor Q))
  : @World Q string :=
  mkWorld (VITON_HD_PATH w) (DEVICE w) (cuda_is_available w) (os_path_exists w)
    (os_listdir w) (Generator_init w) (torch_load w) (load_state_dict_check w)
    (module_to w) (Image_open w) (lanczos w) fwd (fromarray_accepts w) (save_png w).

(** No checkpoint on disk. *)
Definition w_no_checkpoint : @World Q string := with_fs w_ok (fun _ => false).

(** [gen.pkl] is there and [torch.load] cannot read it. *)
Definition w_corrupt : @World Q string :=
  with_torch_load w_ok
    (fun _ _ => Raise (mkExn (OtherError "UnpicklingError") "invalid load key")).

(** A network whose output has half the resolution of its input. *)
Definition w_half : @World Q string :=
  with_forward w_ok
    (fun _ a _ => Ok (mkTensor [1; 3; 384; 512]
                        (fun idx =>
                           match idx with
                           | [n; c; y; x] => elem a [n; c; 2 * y; 2 * x]
                           | _ => elem a idx
                           end))).

(** A network that raises. *)
Definition w_oom : @World Q string :=
  with_forward w_ok
    (fun _ _ _ => Raise (mkExn RuntimeError "CUDA out of memory")).

Definition both_files : Files :=
  [("person_image", mkFile "person.png" [Byte.x01; Byte.x02]);
   ("clothing_image", mkFile "cloth.png" [Byte.x03])].

Definition person_only : Files :=
  [("person_image", mkFile "person.png" [Byte.x01; Byte.x02])].

Definition loaded_generator : @Generator string :=
  mkGenerator (4, 4, 3) (Some "weights") cpu false.

Definition loaded_state : @State string := mkState (Some loaded_generator) [].

(** The import of [networks] failed: [Generator] is not defined. *)
Definition w_no_import : @World Q string :=
  mkWorld (VITON_HD_PATH w_ok) (DEVICE w_ok) (cuda_is_available w_ok)
    (os_path_exists w_ok) (os_listdir w_ok)
    (fun _ _ _ => Some (mkExn (OtherError "NameError") "name 'Generator' is not defined"))
    (torch_load w_ok) (load_state_dict_check w_ok) (module_to w_ok)
    (Image_open w_ok) (lanczos w_ok) (forward w_ok) (fromarray_accepts w_ok)
    (save_png w_ok).

(** The checkpoint path exists and cannot be listed. *)
Definition w_unlistable : @World Q string :=
  mkWorld (VITON_HD_PATH w_ok) (DEVICE w_ok) (cuda_is_available w_ok)
    (os_path_exists w_ok)
    (fun _ => Raise (mkExn (OtherError "NotADirectoryError") "[Errno 20] Not a directory"))
    (Generator_init w_ok) (torch_load w_ok) (load_state_dict_check w_ok) (module_to w_ok)
    (Image_open w_ok) (lanczos w_ok) (forward w_ok) (fromarray_accepts w_ok)
    (save_png w_ok).

(** The log of a complete load in the sample world. *)
Definition load_events : list Event :=
  [EvEval; EvTo; EvLoadStateDict; EvTorchLoad "./VITON-HD/checkpoints/gen.pkl";
   EvGenerator true; EvPathExists "./VITON-HD/checkpoints/gen.pkl"].

(** A network output of two samples, each 2 x 2 with three channels. *)
Definition small_output : Tensor Q :=
  mkTensor [2; 3; 2; 2] (fun idx => inject_Z (Z.of_nat (hd 0 idx))).

(** Uploads the toy decoder rejects (no bytes), in either field, and a
    request with a third field and a repeated one. *)
Definition empty_person : Files :=
  [("person_image", mkFile "person.png" []);
   ("clothing_image", mkFile "cloth.png" [Byte.x03])].

Definition empty_clothing : Files :=
  [("person_image", mkFile "person.png" [Byte.x01; Byte.x02]);
   ("clothing_image", mkFile "cloth.png" [])].


End Sample.

(** * Properties *)

(** ** Strings *)

Lemma substring_app_suffix (p s : string) :
  substring (String.length p) (String.length s) (p ++ s)%string = s.
Proof.
  induction p as [|c p IH]; simpl.
  - induction s as [|c s IH]; simpl; [reflexivity | now rewrite IH].
  - exact IH.
Qed.

Lemma substring_split (s : string) (n : nat) :
  n <= String.length s ->
  s = (substring 0 n s ++ substring n (String.length s - n) s)%string.
Proof.
  revert n; induction s as [|c s IH]; intros n Hn; simpl in *.
  - destruct n; [reflexivity | lia].
  - destruct n as [|n]; simpl.
    + f_equal. clear. induction s as [|d s IH]; simpl; [reflexivity | now rewrite <- IH].
    + f_equal. apply IH. lia.
Qed.

Lemma length_append (a b : string) :
  String.length (a ++ b)%string = String.length a + String.length b.
Proof. induction a as [|c a IH]; simpl; [reflexivity | now rewrite IH]. Qed.

(** [endswith] is Python's [str.endswith]: some prefix followed by the
    suffix. *)
Lemma endswith_spec (s suffix : string) :
  endswith s suffix = true <-> exists p, s = (p ++ suffix)%string.
Proof.
  unfold endswith. rewrite andb_true_iff, Nat.leb_le, String.eqb_eq. split.
  - intros [Hlen Hsub].
    exists (substring 0 (String.length s - String.length suffix) s).
    pose proof (substring_split s (String.length s - String.length suffix)) as Hs.
    replace (String.length s - (String.length s - String.length suffix))
      with (String.length suffix) in Hs by lia.
    rewrite Hsub in Hs. apply Hs. lia.
  - intros [p ->]. rewrite length_append. split; [lia|].
    replace (String.length p + String.length suffix - String.length suffix)
      with (String.length p) by lia.
    apply substring_app_suffix.
Qed.

(** ** base64: the encoder against the reference decoder *)

Lemma b64_ind (P : list Byte.byte -> Prop) :
  P [] -> (forall a, P [a]) -> (forall a b, P [a; b]) ->
  (forall a b c rest, P rest -> P (a :: b :: c :: rest)) ->
  forall l, P l.
Proof.
  intros H0 H1 H2 H3 l.
  assert (H : P l /\ (forall a, P (a :: l)) /\ (forall a b, P (a :: b :: l))).
  { induction l as [|x l (IH0 & IH1 & IH2)]; [auto|].
    split; [apply IH1|]. split; [intros a; apply IH2|]. intros a b. now apply H3. }
  apply H.
Qed.

(** The test vectors of RFC 4648, section 10, and a group that uses the
    last two characters of the alphabet. *)
Example b64encode_rfc4648 :
  b64encode [] = ""
  /\ b64encode [Byte.x66] = "Zg=="
  /\ b64encode [Byte.x66; Byte.x6f] = "Zm8="
  /\ b64encode [Byte.x66; Byte.x6f; Byte.x6f] = "Zm9v"
  /\ b64encode [Byte.x66; Byte.x6f; Byte.x6f; Byte.x62] = "Zm9vYg=="
  /\ b64encode [Byte.x66; Byte.x6f; Byte.x6f; Byte.x62; Byte.x61] = "Zm9vYmE="
  /\ b64encode [Byte.x66; Byte.x6f; Byte.x6f; Byte.x62; Byte.x61; Byte.x72] = "Zm9vYmFy"
  /\ b64encode [Byte.xfb; Byte.xff; Byte.xfe] = "+//+".
Proof. repeat split. Qed.

(** The character of a sextet is found again at its index, and is not
    the padding. *)
Lemma b64_char_index (k : N) :
  (k < 64)%N ->
  b64_index (b64_char k) = Some k /\ Ascii.eqb (b64_char k) "=" = false.
Proof.
  intros Hk.
  assert (Hall : forallb (fun n => match b64_index (b64_char n) with
                                   | Some m => N.eqb m n
                                   | None => false
                                   end && negb (Ascii.eqb (b64_char n) "="))
                   (map N.of_nat (seq 0 64)) = true) by (vm_compute; reflexivity).
  rewrite forallb_forall in Hall.
  assert (Hin : In k (map N.of_nat (seq 0 64))).
  { apply in_map_iff. exists (N.to_nat k). split; [apply N2Nat.id|].
    apply in_seq. lia. }
  specialize (Hall k Hin). apply andb_true_iff in Hall as (H1 & H2).
  destruct (b64_index (b64_char k)) as [m|]; [|discriminate].
  apply N.eqb_eq in H1. subst m. split; [reflexivity|].
  now apply negb_true_iff in H2.
Qed.

(** The four sextets the encoder cuts out of three bytes, and the bytes
    back from them. *)
Lemma b64_sextets (a b c : N) :
  (a < 256)%N -> (b < 256)%N -> (c < 256)%N ->
  let n := (a * 65536 + b * 256 + c)%N in
  let s1 := N.shiftr n 18 in
  let s2 := N.land (N.shiftr n 12) 63 in
  let s3 := N.land (N.shiftr n 6) 63 in
  let s4 := N.land n 63 in
  (s1 < 64 /\ s2 < 64 /\ s3 < 64 /\ s4 < 64
   /\ s1 * 4 + s2 / 16 = a
   /\ (s2 mod 16) * 16 + s3 / 4 = b
   /\ (s3 mod 4) * 64 + s4 = c)%N.
Proof.
  intros Ha Hb Hc n s1 s2 s3 s4. subst s1 s2 s3 s4.
  change 63%N with (N.ones 6). rewrite !N.land_ones, !N.shiftr_div_pow2.
  change (2 ^ 18)%N with 262144%N. change (2 ^ 12)%N with 4096%N.
  change (2 ^ 6)%N with 64%N. subst n.
  repeat split; zify; Z.to_euclidean_division_equations; lia.
Qed.

Lemma byte_of_to_N (a : Byte.byte) : byte_of_N (Byte.to_N a) = a.
Proof. unfold byte_of_N. now rewrite Byte.of_to_N. Qed.

Lemma byte_to_N_lt (a : Byte.byte) : (Byte.to_N a < 256)%N.
Proof. pose proof (Byte.to_N_bounded a). lia. Qed.

(** Decoding what [b64encode] produced gives the bytes back. *)
Lemma b64_roundtrip (bs : list Byte.byte) : b64decode (b64encode bs) = Some bs.
Proof.
  induction bs as [|a|a b|a b c rest IH] using b64_ind.
  - reflexivity.
  - cbn [b64encode].
    destruct (b64_sextets (Byte.to_N a) 0 0 (byte_to_N_lt a) ltac:(lia) ltac:(lia))
      as (H1 & H2 & _ & _ & Ea & _).
    rewrite !N.mul_0_l, !N.add_0_r in H1, H2, Ea.
    cbn [b64decode].
    rewrite (proj1 (b64_char_index _ H1)), (proj1 (b64_char_index _ H2)).
    rewrite Ea, byte_of_to_N. reflexivity.
  - cbn [b64encode].
    destruct (b64_sextets (Byte.to_N a) (Byte.to_N b) 0 (byte_to_N_lt a) (byte_to_N_lt b)
                ltac:(lia)) as (H1 & H2 & H3 & _ & Ea & Eb & _).
    rewrite !N.add_0_r in H1, H2, H3, Ea, Eb.
    cbn [b64decode].
    rewrite (proj1 (b64_char_index _ H1)), (proj1 (b64_char_index _ H2)),
      (proj2 (b64_char_index _ H3)), (proj1 (b64_char_index _ H3)).
    rewrite Ea, Eb, !byte_of_to_N. reflexivity.
  - cbn [b64encode].
    destruct (b64_sextets (Byte.to_N a) (Byte.to_N b) (Byte.to_N c) (byte_to_N_lt a)
                (byte_to_N_lt b) (byte_to_N_lt c)) as (H1 & H2 & H3 & H4 & Ea & Eb & Ec).
    cbn [b64decode].
    rewrite (proj1 (b64_char_index _ H1)), (proj1 (b64_char_index _ H2)),
      (proj2 (b64_char_index _ H3)), (proj1 (b64_char_index _ H3)),
      (proj2 (b64_char_index _ H4)), (proj1 (b64_char_index _ H4)), IH.
    rewrite Ea, Eb, Ec, !byte_of_to_N. reflexivity.
Qed.

Section Properties.

Context {F : Type} {F32 : Float32 F} {Checkpoint : Type}.
Implicit Types (w : @World F Checkpoint) (st : @State Checkpoint).
Implicit Types (p : Event -> bool) (ev : Event).
Local Open Scope py_scope.
Local Abbreviation St := (@State Checkpoint).

(** ** The log *)

Lemma count_app p (a b : list Event) : count p (a ++ b) = count p a + count p b.
Proof. unfold count. now rewrite filter_app, length_app. Qed.

Lemma new_events_app st st' (evs : list Event) :
  log st' = evs ++ log st -> new_events st st' = evs.
Proof.
  unfold new_events. intros ->. rewrite length_app, Nat.add_sub.
  rewrite firstn_app, Nat.sub_diag, firstn_all. simpl. apply app_nil_r.
Qed.

(** ** Rules for [emits] and [keeps_model] *)

Lemma emits_weaken {A} p n n' (m : M St A) : emits p n m -> n <= n' -> emits p n' m.
Proof.
  intros Hm Hle st r st' Hrun. destruct (Hm _ _ _ Hrun) as (evs & Hlog & Hc).
  exists evs. split; [assumption | lia].
Qed.

Lemma emits_l {A} p a b (m : M St A) : emits p a m -> emits p (Nat.max a b) m.
Proof. intros H. apply (emits_weaken _ _ _ _ H). lia. Qed.

Lemma emits_r {A} p a b (m : M St A) : emits p b m -> emits p (Nat.max a b) m.
Proof. intros H. apply (emits_weaken _ _ _ _ H). lia. Qed.

Lemma emits_ret {A} p (a : A) : emits p 0 (@ret St A a).
Proof. intros st r st' [= <- <-]. now exists []. Qed.

Lemma emits_raise {A} p (e : Exn) : emits p 0 (@raise St A e).
Proof. intros st r st' [= <- <-]. now exists []. Qed.

Lemma emits_lift {A} p (x : result A) : emits p 0 (@lift St A x).
Proof. intros st r st' [= <- <-]. now exists []. Qed.

Lemma emits_check p (o : option Exn) : emits p 0 (@check St o).
Proof. destruct o; [apply emits_raise | apply emits_ret]. Qed.

Lemma emits_get_model p : emits p 0 (@get_model Checkpoint).
Proof. intros st r st' [= <- <-]. now exists []. Qed.

Lemma emits_set_model p (g : @Generator Checkpoint) : emits p 0 (set_model g).
Proof. intros st r st' [= <- <-]. now exists []. Qed.

Lemma emits_emit p ev : emits p (if p ev then 1 else 0) (@emit Checkpoint ev).
Proof.
  intros st r st' [= <- <-]. exists [ev]. split; [reflexivity|].
  unfold count. simpl. destruct (p ev); simpl; lia.
Qed.

Lemma emits_emit_no p ev : p ev = false -> emits p 0 (@emit Checkpoint ev).
Proof. intros H. pose proof (emits_emit p ev) as E. now rewrite H in E. Qed.

Lemma emits_emit_yes p ev : p ev = true -> emits p 1 (@emit Checkpoint ev).
Proof. intros H. pose proof (emits_emit p ev) as E. now rewrite H in E. Qed.

Lemma emits_bind {A B} p n1 n2 (m : M St A) (k : A -> M St B) :
  emits p n1 m -> (forall a, emits p n2 (k a)) -> emits p (n1 + n2) (bind m k).
Proof.
  intros Hm Hk st r st' Hrun. unfold bind in Hrun.
  destruct (m st) as [[a|e] st1] eqn:Em.
  - destruct (Hm _ _ _ Em) as (e1 & L1 & C1).
    destruct (Hk a _ _ _ Hrun) as (e2 & L2 & C2).
    exists (e2 ++ e1). rewrite <- app_assoc, <- L1, L2, count_app. split; [reflexivity | lia].
  - injection Hrun as <- <-. destruct (Hm _ _ _ Em) as (e1 & L1 & C1).
    exists e1. split; [assumption | lia].
Qed.

Lemma emits_try {A} p n1 n2 (m : M St A) (h : Exn -> M St A) :
  emits p n1 m -> (forall e, emits p n2 (h e)) -> emits p (n1 + n2) (try_except m h).
Proof.
  intros Hm Hh st r st' Hrun. unfold try_except in Hrun.
  destruct (m st) as [[a|e] st1] eqn:Em.
  - injection Hrun as <- <-. destruct (Hm _ _ _ Em) as (e1 & L1 & C1).
    exists e1. split; [assumption | lia].
  - destruct (Hm _ _ _ Em) as (e1 & L1 & C1).
    destruct (Hh e _ _ _ Hrun) as (e2 & L2 & C2).
    exists (e2 ++ e1). rewrite <- app_assoc, <- L1, L2, count_app. split; [reflexivity | lia].
Qed.

Lemma emits_model_method p name (f : @Generator Checkpoint -> Generator) :
  emits p 0 (model_method name f).
Proof.
  intros st r st' Hrun. unfold model_method, bind, get_model in Hrun.
  destruct (model st); injection Hrun as <- <-; now exists [].
Qed.

Lemma keeps_ret {A} (a : A) : keeps_model (@ret St A a).
Proof. now intros st r st' [= <- <-]. Qed.

Lemma keeps_raise {A} (e : Exn) : keeps_model (@raise St A e).
Proof. now intros st r st' [= <- <-]. Qed.

Lemma keeps_lift {A} (x : result A) : keeps_model (@lift St A x).
Proof. now intros st r st' [= <- <-]. Qed.

Lemma keeps_get_model : keeps_model (@get_model Checkpoint).
Proof. now intros st r st' [= <- <-]. Qed.

Lemma keeps_emit ev : keeps_model (@emit Checkpoint ev).
Proof. now intros st r st' [= <- <-]. Qed.

Lemma keeps_bind {A B} (m : M St A) (k : A -> M St B) :
  keeps_model m -> (forall a, keeps_model (k a)) -> keeps_model (bind m k).
Proof.
  intros Hm Hk st r st' Hrun. unfold bind in Hrun.
  destruct (m st) as [[a|e] st1] eqn:Em.
  - rewrite (Hk a _ _ _ Hrun). exact (Hm _ _ _ Em).
  - injection Hrun as <- <-. exact (Hm _ _ _ Em).
Qed.

Lemma keeps_try {A} (m : M St A) (h : Exn -> M St A) :
  keeps_model m -> (forall e, keeps_model (h e)) -> keeps_model (try_except m h).
Proof.
  intros Hm Hh st r st' Hrun. unfold try_except in Hrun.
  destruct (m st) as [[a|e] st1] eqn:Em.
  - injection Hrun as <- <-. exact (Hm _ _ _ Em).
  - rewrite (Hh e _ _ _ Hrun). exact (Hm _ _ _ Em).
Qed.

(** Inversion of a sequence that ended normally. *)
Lemma bind_Ok {A B} (m : M St A) (k : A -> M St B) st (b : B) st' :
  bind m k st = (Ok b, st') ->
  exists a st1, m st = (Ok a, st1) /\ k a st1 = (Ok b, st').
Proof.
  unfold bind. destruct (m st) as [[a|e] st1]; [|discriminate].
  intros H. now exists a, st1.
Qed.

(** Inversion of a sequence that raised: in its first statement, or in the
    rest after the first ended normally. *)
Lemma bind_Raise {A B} (m : M St A) (k : A -> M St B) st (e : Exn) st' :
  @bind St A B m k st = (Raise e, st') ->
  m st = (Raise e, st') \/
  exists a st1, m st = (Ok a, st1) /\ k a st1 = (Raise e, st').
Proof.
  unfold bind. destruct (m st) as [[a|e0] st1].
  - intros H. right. now exists a, st1.
  - intros [= <- <-]. now left.
Qed.

(** One step of a derivation of [emits] or [keeps_model], by the shape of
    the statement. *)
Ltac emits_step :=
  lazymatch goal with
  | |- emits _ _ (bind _ _) => eapply emits_bind; [ | intros ? ]
  | |- emits _ _ (try_except _ _) => eapply emits_try; [ | intros ? ]
  | |- emits _ _ (ret _) => apply emits_ret
  | |- emits _ _ (raise _) => apply emits_raise
  | |- emits _ _ (lift _) => apply emits_lift
  | |- emits _ _ (check _) => apply emits_check
  | |- emits _ _ get_model => apply emits_get_model
  | |- emits _ _ (set_model _) => apply emits_set_model
  | |- emits _ _ (emit _) =>
      first [ apply emits_emit_no; reflexivity | apply emits_emit_yes; reflexivity ]
  | |- emits _ _ (model_method _ _) => apply emits_model_method
  | |- emits _ _ (if ?c then _ else _) => destruct c; [eapply emits_l | eapply emits_r]
  | |- emits _ _ (match ?x with Some _ => _ | None => _ end) =>
      destruct x; [eapply emits_l | eapply emits_r]
  | |- emits _ _ (let _ := _ in _) => cbv zeta
  | |- emits _ _ (load_model _) => unfold load_model
  | |- emits _ _ (ensure_model _) => unfold ensure_model
  | |- emits _ _ (preprocess_image _ _) => unfold preprocess_image
  | |- emits _ _ (call_model _ _ _) => unfold call_model
  | |- emits _ _ (tryon_pipeline _ _) => unfold tryon_pipeline
  | |- emits _ _ (generate_tryon_body _ _) => unfold generate_tryon_body
  | |- emits _ _ (list_models_body _) => unfold list_models_body
  end.

Ltac keeps_step :=
  lazymatch goal with
  | |- keeps_model (bind _ _) => apply keeps_bind; [ | intros ? ]
  | |- keeps_model (try_except _ _) => apply keeps_try; [ | intros ? ]
  | |- keeps_model (ret _) => apply keeps_ret
  | |- keeps_model (raise _) => apply keeps_raise
  | |- keeps_model (lift _) => apply keeps_lift
  | |- keeps_model get_model => apply keeps_get_model
  | |- keeps_model (emit _) => apply keeps_emit
  | |- keeps_model (if ?c then _ else _) => destruct c
  | |- keeps_model (match ?x with Some _ => _ | None => _ end) => destruct x
  | |- keeps_model (let _ := _ in _) => cbv zeta
  | |- keeps_model (preprocess_image _ _) => unfold preprocess_image
  | |- keeps_model (call_model _ _ _) => unfold call_model
  | |- keeps_model (tryon_pipeline _ _) => unfold tryon_pipeline
  | |- keeps_model (list_models_body _) => unfold list_models_body
  end.

(** ** load_model *)

Lemma load_model_loaded w st (g : Generator) :
  model st = Some g -> load_model w st = (Ok (Some g), st).
Proof.
  intros Hm. unfold load_model, try_except, bind, get_model, ret.
  cbn. rewrite Hm. cbn. now rewrite Hm.
Qed.

Lemma load_model_emits w :
  emits is_preprocessing 0 (load_model w) /\
  emits is_inference 0 (load_model w) /\
  emits is_save 0 (load_model w) /\
  emits is_generator_call 1 (load_model w) /\
  emits is_torch_load 1 (load_model w).
Proof.
  repeat split; (eapply emits_weaken;
    [ unfold load_model; repeat emits_step | cbn; lia ]).
Qed.

(** C4: with no model bound and no [gen.pkl] in the checkpoint directory,
    [load_model] raises [FileNotFoundError] (naming the path) and the
    global stays [None]. *)
Theorem load_model_missing_checkpoint w st :
  model st = None ->
  os_path_exists w (os_path_join (CHECKPOINT_DIR w) "gen.pkl") = false ->
  fst (load_model w st)
    = Raise (mkExn FileNotFoundError
               ("Model checkpoint not found at "
                ++ os_path_join (CHECKPOINT_DIR w) "gen.pkl")%string)
  /\ model (snd (load_model w st)) = None.
Proof.
  intros Hm Hex. unfold load_model, try_except, bind, get_model, emit, raise.
  cbn. rewrite Hm. cbn. rewrite Hex. cbn. split; [reflexivity | assumption].
Qed.

(** ** preprocess_image *)

(** What [preprocess_image] returns for a decoded image [img]. *)
Lemma preprocess_image_decoded w data st sz pixels :
  Image_open w data = Ok (sz, pixels) ->
  exists t,
    preprocess_image w data st
      = (Ok t, mkState (model st) (EvResize (1024, 768) :: EvImageOpen data :: log st)) /\
    shape t = [1; 3; 768; 1024] /\
    forall c y x, c < 3 ->
      elem t [0; c; y; x] =
        f32_div
          (f32_sub
             (f32_div
                (f32_of_u8 (px (Image_resize w (1024, 768) (mkImage sz 3 pixels)) y x c))
                (f32_lit 255%Q))
             (nth c [f32_lit 0.485%Q; f32_lit 0.456%Q; f32_lit 0.406%Q] (f32_lit 0%Q)))
          (nth c [f32_lit 0.229%Q; f32_lit 0.224%Q; f32_lit 0.225%Q] (f32_lit 0%Q)).
Proof.
  intros Hopen.
  unfold preprocess_image, try_except, bind, emit, lift, ret. cbn.
  rewrite Hopen. cbn.
  eexists. split; [reflexivity|]. split; [reflexivity|].
  intros c y x Hc.
  destruct c as [|[|[|c]]]; [reflexivity | reflexivity | reflexivity | lia].
Qed.

Lemma preprocess_image_undecodable w data st e :
  Image_open w data = Raise e ->
  preprocess_image w data st
    = (Raise (mkExn ValueError ("Error preprocessing image: " ++ exn_str e)%string),
       mkState (model st) (EvImageOpen data :: log st)).
Proof.
  intros Hopen. unfold preprocess_image, try_except, bind, emit, lift, raise. cbn.
  rewrite Hopen. reflexivity.
Qed.

(** ** generate_tryon *)

Lemma generate_tryon_body_unfold w files :
  generate_tryon_body w files
  = (ensure_model w ;;
     if negb (files_contains "person_image" files)
        || negb (files_contains "clothing_image" files)
     then ret missing_files_response
     else tryon_pipeline w files).
Proof. reflexivity. Qed.

(** The lazy load ends as [load_model] does, in the state [load_model]
    leaves (the state it found, when a model is bound). *)
Lemma ensure_model_run w st :
  ensure_model w st
  = (match fst (load_model w st) with Ok _ => Ok tt | Raise e => Raise e end,
     snd (load_model w st)).
Proof.
  unfold ensure_model, bind, get_model. cbn.
  destruct (model st) as [g|] eqn:Hm.
  - rewrite (load_model_loaded w st g Hm). reflexivity.
  - unfold ret. destruct (load_model w st) as [[o|e] st1]; reflexivity.
Qed.

Lemma generate_tryon_body_emits w files :
  emits is_inference 1 (generate_tryon_body w files) /\
  emits is_generator_call 1 (generate_tryon_body w files) /\
  emits is_torch_load 1 (generate_tryon_body w files) /\
  emits is_image_open 2 (generate_tryon_body w files) /\
  emits is_save 1 (generate_tryon_body w files).
Proof.
  repeat split; (eapply emits_weaken; [ repeat emits_step | cbn; lia ]).
Qed.

Lemma tryon_pipeline_keeps_model w files : keeps_model (tryon_pipeline w files).
Proof. repeat keeps_step. Qed.

Lemma tryon_pipeline_no_construction w files :
  emits is_construction 0 (tryon_pipeline w files).
Proof. eapply emits_weaken; [ repeat emits_step | cbn; lia ]. Qed.

Lemma preprocess_image_Ok w data st (t : Tensor F) st' :
  preprocess_image w data st = (Ok t, st') ->
  shape t = [1; 3; 768; 1024] /\
  st' = mkState (model st) (EvResize (1024, 768) :: EvImageOpen data :: log st) /\
  exists sz pixels, Image_open w data = Ok (sz, pixels).
Proof.
  intros Hrun. destruct (Image_open w data) as [[sz pixels]|e] eqn:Hopen.
  - destruct (preprocess_image_decoded w data st sz pixels Hopen) as (t' & Ht & Hs & _).
    rewrite Ht in Hrun. injection Hrun as <- <-. eauto.
  - rewrite (preprocess_image_undecodable w data st e Hopen) in Hrun. discriminate.
Qed.

(** A normal end of the pipeline, step by step. *)
Lemma tryon_pipeline_Ok w files st (r : Response) st' :
  tryon_pipeline w files st = (Ok r, st') ->
  exists pf cf pt ct g output img png,
    files_getitem "person_image" files = Some pf /\
    files_getitem "clothing_image" files = Some cf /\
    shape pt = [1; 3; 768; 1024] /\
    shape ct = [1; 3; 768; 1024] /\
    model st = Some g /\
    forward w g pt ct = Ok output /\
    postprocess w output = Ok img /\
    save_png w img = Ok png /\
    r = success_response (b64encode png) /\
    st' = mkState (model st)
            (EvSavePng (img_size img) :: EvForward (shape pt) (shape ct)
             :: EvResize (1024, 768) :: EvImageOpen (content cf)
             :: EvResize (1024, 768) :: EvImageOpen (content pf) :: log st).
Proof.
  intros H. unfold tryon_pipeline in H.
  apply bind_Ok in H as (pf & s1 & H1 & H).
  unfold lift, request_file in H1.
  destruct (files_getitem "person_image" files) as [pf'|] eqn:Hpf; [|discriminate].
  injection H1 as -> <-.
  apply bind_Ok in H as (cf & s2 & H2 & H).
  unfold lift, request_file in H2.
  destruct (files_getitem "clothing_image" files) as [cf'|] eqn:Hcf; [|discriminate].
  injection H2 as -> <-.
  apply bind_Ok in H as (pt & s3 & H3 & H).
  apply preprocess_image_Ok in H3 as (Hpt & -> & _).
  apply bind_Ok in H as (ct & s4 & H4 & H).
  apply preprocess_image_Ok in H4 as (Hct & -> & _).
  apply bind_Ok in H as (output & s5 & H5 & H).
  unfold call_model, bind, get_model, emit, lift, raise in H5. cbn in H5.
  destruct (model st) as [g|] eqn:Hg; [|discriminate].
  destruct (forward w g pt ct) as [out|e] eqn:Hfw; [|discriminate].
  injection H5 as -> <-.
  apply bind_Ok in H as (img & s6 & H6 & H).
  unfold lift in H6. injection H6 as H6 <-.
  apply bind_Ok in H as ([] & s7 & H7 & H).
  unfold emit in H7. injection H7 as <-.
  apply bind_Ok in H as (png & s8 & H8 & H).
  unfold lift in H8. injection H8 as H8 <-.
  cbv zeta in H. unfold ret in H. injection H as <- <-. cbn.
  exists pf, cf, pt, ct, g, output, img, png. repeat split; assumption.
Qed.

Lemma success_response_status b64 : status (success_response b64) = 200.
Proof. reflexivity. Qed.

Lemma error_response_status e : status (error_response e) = 500.
Proof. reflexivity. Qed.

Lemma field_absent_true_iff files :
  negb (files_contains "person_image" files)
  || negb (files_contains "clothing_image" files) = true
  <-> files_contains "person_image" files = false
      \/ files_contains "clothing_image" files = false.
Proof. rewrite orb_true_iff, !negb_true_iff. reflexivity. Qed.

(** [generate_tryon], step by step: the lazy load, the validation, the
    pipeline, and the 500 payload for whatever is raised on the way. *)
Lemma generate_tryon_run w files st :
  generate_tryon w files st
  = match load_model w st with
    | (Raise e, st1) => (error_response e, st1)
    | (Ok _, st1) =>
        if negb (files_contains "person_image" files)
           || negb (files_contains "clothing_image" files)
        then (missing_files_response, st1)
        else match tryon_pipeline w files st1 with
             | (Ok r, st2) => (r, st2)
             | (Raise e, st2) => (error_response e, st2)
             end
    end.
Proof.
  unfold generate_tryon. rewrite generate_tryon_body_unfold. unfold bind.
  rewrite ensure_model_run.
  destruct (load_model w st) as [[o|e] st1]; cbn [fst snd]; [|reflexivity].
  destruct (negb (files_contains "person_image" files)
            || negb (files_contains "clothing_image" files)); reflexivity.
Qed.

(** The events of a load, counted from the state it started in. *)
Lemma load_model_new_events w st r st' :
  load_model w st = (r, st') ->
  count is_preprocessing (new_events st st') = 0 /\
  count is_inference (new_events st st') = 0.
Proof.
  intros Hl. destruct (load_model_emits w) as (Hp & Hi & _).
  destruct (Hp _ _ _ Hl) as (e1 & L1 & C1).
  destruct (Hi _ _ _ Hl) as (e2 & L2 & C2).
  rewrite (new_events_app _ _ _ L1) at 1. rewrite (new_events_app _ _ _ L2). lia.
Qed.

(** C1, as the code has it: the lazy load comes before the validation, so
    the response is the 400 payload exactly when a required field is
    absent and the model is there (bound already, or [load_model] returns
    normally); with a field absent and a load that raises it is a 500.
    With a field absent, nothing is preprocessed and the network is not
    run. *)
Theorem tryon_missing_fields w files st :
  (status (fst (generate_tryon w files st)) = 400 <->
     (files_contains "person_image" files = false
      \/ files_contains "clothing_image" files = false)
     /\ model_available w st = true)
  /\ (status (fst (generate_tryon w files st)) = 400 ->
        fst (generate_tryon w files st)
        = mkResponse 400
            (JDict [("error", JStr "Missing required files: person_image, clothing_image")]))
  /\ (files_contains "person_image" files = false
       \/ files_contains "clothing_image" files = false ->
        (model_available w st = false ->
           status (fst (generate_tryon w files st)) = 500)
        /\ count is_preprocessing (new_events st (snd (generate_tryon w files st))) = 0
        /\ count is_inference (new_events st (snd (generate_tryon w files st))) = 0).
Proof.
  rewrite generate_tryon_run. unfold model_available.
  rewrite <- field_absent_true_iff.
  destruct (load_model w st) as [[o|e] st1] eqn:Hl; cbn [fst snd].
  - destruct (negb (files_contains "person_image" files)
              || negb (files_contains "clothing_image" files)) eqn:Habs.
    + cbn. pose proof (load_model_new_events _ _ _ _ Hl). intuition discriminate.
    + destruct (tryon_pipeline w files st1) as [[r|e] st2] eqn:Hp; cbn [fst snd].
      * apply tryon_pipeline_Ok in Hp
          as (pf & cf & pt & ct & g & out & img & png & _ & _ & _ & _ & _ & _ & _ & _ & -> & _).
        cbn. repeat split; intros; try discriminate; intuition discriminate.
      * cbn. repeat split; intros; try discriminate; intuition discriminate.
  - cbn. pose proof (load_model_new_events _ _ _ _ Hl).
    repeat split; intros; try discriminate; intuition discriminate.
Qed.

(** ** The post-processing block *)

Lemma to_pixel_range (x : F) : (0 <= to_pixel x <= 255)%Z.
Proof.
  unfold to_pixel, astype_uint8.
  pose proof (Z.mod_pos_bound (f32_trunc (np_clip x (f32_lit 0%Q) (f32_lit 255%Q))) 256).
  lia.
Qed.

(** An output the block accepts is four-dimensional, (N, C, H, W) with
    N at least 1 and C a channel count PIL takes; the image is W by H and
    its pixel (y, x, c) is computed from element (0, c, y, x). *)
Lemma postprocess_Ok w (output : Tensor F) (img : Image) :
  postprocess w output = Ok img ->
  exists n ch h wd,
    shape output = [n; ch; h; wd] /\
    img_size img = (wd, h) /\
    forall y x c, px img y x c = to_pixel (denormalize (elem output [0; c; y; x])).
Proof.
  unfold postprocess, index0.
  destruct (shape output) as [|n [|ch [|h [|wd [|d rest]]]]] eqn:Hs;
    try discriminate;
    destruct (n =? 0)%nat; try discriminate;
    unfold permute; cbn; rewrite ?andb_false_r; try discriminate.
  unfold Image_fromarray. cbn.
  destruct (fromarray_accepts w ch); [|discriminate].
  intros [= <-]. exists n, ch, h, wd. cbn. repeat split.
Qed.

Lemma count_0_In p (l : list Event) ev : count p l = 0 -> In ev l -> p ev = false.
Proof.
  unfold count. induction l as [|a l IH]; simpl; [tauto|].
  destruct (p a) eqn:Ha; simpl; [discriminate|].
  intros H [<-|Hin]; auto.
Qed.

(** A successful response, traced back through the handler. *)
Lemma generate_tryon_200 w files st :
  status (fst (generate_tryon w files st)) = 200 ->
  exists st1 pt ct g output img png,
    (exists evs, log st1 = evs ++ log st /\ count is_save evs = 0) /\
    shape pt = [1; 3; 768; 1024] /\
    shape ct = [1; 3; 768; 1024] /\
    model (snd (generate_tryon w files st)) = Some g /\
    forward w g pt ct = Ok output /\
    postprocess w output = Ok img /\
    save_png w img = Ok png /\
    fst (generate_tryon w files st) = success_response (b64encode png) /\
    exists data1 data2,
      log (snd (generate_tryon w files st))
      = EvSavePng (img_size img) :: EvForward (shape pt) (shape ct)
        :: EvResize (1024, 768) :: EvImageOpen data2
        :: EvResize (1024, 768) :: EvImageOpen data1 :: log st1.
Proof.
  rewrite generate_tryon_run.
  destruct (load_model w st) as [[o|e] st1] eqn:Hl; cbn [fst snd]; [|discriminate].
  destruct (negb (files_contains "person_image" files)
            || negb (files_contains "clothing_image" files)); [discriminate|].
  destruct (tryon_pipeline w files st1) as [[r|e] st2] eqn:Hp; cbn [fst snd];
    [|discriminate].
  intros _.
  apply tryon_pipeline_Ok in Hp
    as (pf & cf & pt & ct & g & out & img & png & _ & _ & Hpt & Hct & Hg & Hf & Hpost
        & Hsave & -> & ->).
  exists st1, pt, ct, g, out, img, png. cbn [model log].
  destruct (load_model_emits w) as (_ & _ & Hs & _).
  destruct (Hs _ _ _ Hl) as (evs & Hlog & Hc).
  repeat split; try assumption.
  - exists evs. split; [assumption | lia].
  - now exists (content pf), (content cf).
Qed.

(** C7: on success the network's output is post-processed element by
    element as [(x * 0.5 + 0.5) * 255], clipped to [0, 255] and cast to
    uint8, so every pixel lies in 0..255; the image is saved as PNG and
    ['result_image'] is ['data:image/png;base64,'] followed by the
    base64 of the PNG bytes: the text after the prefix decodes, by the
    reference decoder, to exactly the bytes that were saved. *)
Theorem tryon_result_image w files st :
  status (fst (generate_tryon w files st)) = 200 ->
  exists g pt ct output img png,
    forward w g pt ct = Ok output /\
    postprocess w output = Ok img /\
    (forall y x c,
       px img y x c
       = ((f32_trunc
             (f32_min
                (f32_max
                   (f32_mul
                      (f32_add (f32_mul (elem output [0%nat; c; y; x]) (f32_lit 0.5%Q))
                               (f32_lit 0.5%Q))
                      (f32_lit 255%Q))
                   (f32_lit 0%Q))
                (f32_lit 255%Q))) mod 256)%Z
       /\ (0 <= px img y x c <= 255)%Z) /\
    save_png w img = Ok png /\
    json_field "result_image" (body (fst (generate_tryon w files st)))
    = Some (JStr ("data:image/png;base64," ++ b64encode png)%string) /\
    exists text,
      json_field "result_image" (body (fst (generate_tryon w files st)))
      = Some (JStr ("data:image/png;base64," ++ text)%string)
      /\ b64decode text = Some png.
Proof.
  intros H200.
  destruct (generate_tryon_200 w files st H200)
    as (st1 & pt & ct & g & out & img & png & _ & _ & _ & _ & Hf & Hpost & Hsave & Hresp & _).
  exists g, pt, ct, out, img, png.
  assert (Hfield : json_field "result_image" (body (fst (generate_tryon w files st)))
                   = Some (JStr ("data:image/png;base64," ++ b64encode png)%string))
    by (rewrite Hresp; reflexivity).
  repeat split; try assumption;
    [| | | exists (b64encode png); split; [exact Hfield | apply b64_roundtrip]].
  - destruct (postprocess_Ok w out img Hpost) as (n & ch & h & wd & _ & _ & Hpx).
    rewrite Hpx. reflexivity.
  - destruct (postprocess_Ok w out img Hpost) as (n & ch & h & wd & _ & _ & Hpx).
    rewrite Hpx. apply to_pixel_range.
  - destruct (postprocess_Ok w out img Hpost) as (n & ch & h & wd & _ & _ & Hpx).
    rewrite Hpx. apply to_pixel_range.
Qed.

(** The size of the encoded image, for any network: whatever the
    uploads, the network is run on two tensors of shape
    (1, 3, 768, 1024), and the image that is encoded has the width and
    height of the network's output, (N, C, H, W) giving W x H. *)
Lemma tryon_image_size w files st :
  status (fst (generate_tryon w files st)) = 200 ->
  exists g pt ct output n ch h wd,
    shape pt = [1; 3; 768; 1024] /\
    shape ct = [1; 3; 768; 1024] /\
    forward w g pt ct = Ok output /\
    shape output = [n; ch; h; wd] /\
    In (EvForward [1; 3; 768; 1024] [1; 3; 768; 1024])
       (new_events st (snd (generate_tryon w files st))) /\
    (forall size, In (EvSavePng size) (new_events st (snd (generate_tryon w files st)))
                  <-> size = (wd, h)) /\
    ((wd, h) = (1024, 768) <-> h = 768 /\ wd = 1024).
Proof.
  intros H200.
  destruct (generate_tryon_200 w files st H200)
    as (st1 & pt & ct & g & out & img & png & (evs & Hlog1 & Hc) & Hpt & Hct & _ & Hf
        & Hpost & _ & _ & d1 & d2 & Hlog).
  destruct (postprocess_Ok w out img Hpost) as (n & ch & h & wd & Hs & Hsz & _).
  exists g, pt, ct, out, n, ch, h, wd.
  rewrite Hlog1, Hsz, Hpt, Hct in Hlog.
  change (?a :: ?b :: ?c :: ?d :: ?e :: ?f :: evs ++ log st)
    with ((a :: b :: c :: d :: e :: f :: evs) ++ log st) in Hlog.
  rewrite (new_events_app _ _ _ Hlog).
  repeat split; try assumption.
  - simpl. auto.
  - simpl. intros [[= <-]|[|[|[|[|[|Hin]]]]]]; try discriminate; [reflexivity|].
    apply (count_0_In _ _ _ Hc) in Hin. discriminate.
  - intros ->. simpl. auto.
  - congruence.
  - congruence.
  - intros [-> ->]. reflexivity.
Qed.


(** ** Exceptions in generate_tryon *)

Lemma bind_run_Ok {A B} (m : M St A) (k : A -> M St B) st (a : A) st1 :
  m st = (Ok a, st1) -> bind m k st = k a st1.
Proof. unfold bind. now intros ->. Qed.

Lemma bind_run_Raise {A B} (m : M St A) (k : A -> M St B) st (e : Exn) st1 :
  m st = (Raise e, st1) -> bind m k st = (Raise e, st1).
Proof. unfold bind. now intros ->. Qed.

(** The calls of a load are made once each and in order: what a load
    logs is an initial part of [load_calls] (the oldest calls), all of it
    when the load returns normally from an unbound global, and nothing
    when a model is bound. *)
Lemma load_model_calls w st r st1 :
  load_model w st = (r, st1) ->
  exists constructed later evs,
    log st1 = evs ++ log st
    /\ later ++ evs
       = (if is_not_None (model st) then [] else load_calls w constructed)
    /\ (forall o, r = Ok o -> later = []).
Proof.
  destruct (model st) as [g|] eqn:Hm.
  - rewrite (load_model_loaded w st g Hm). intros [= <- <-].
    exists true, [], []. repeat split.
  - unfold load_model, try_except, bind, get_model, emit, raise, ret, check, lift,
      model_method, set_model, load_calls.
    cbn. rewrite Hm. cbn.
    destruct (os_path_exists w _); cbn;
      [|intros [= <- <-]; exists true;
        eexists [_; _; _; _; _], [_]; repeat split; discriminate].
    destruct (Generator_init w 4 4 3); cbn;
      [intros [= <- <-]; exists false;
        eexists [_; _; _; _], [_; _]; repeat split; discriminate|].
    destruct (torch_load w _ _); cbn;
      [|intros [= <- <-]; exists true;
        eexists [_; _; _], [_; _; _]; repeat split; discriminate].
    destruct (load_state_dict_check w _); cbn;
      [intros [= <- <-]; exists true;
        eexists [_; _], [_; _; _; _]; repeat split; discriminate|].
    destruct (module_to w _); cbn;
      [intros [= <- <-]; exists true;
        eexists [_], [_; _; _; _; _]; repeat split; discriminate|].
    intros [= <- <-]. exists true. eexists [], [_; _; _; _; _; _]. repeat split.
Qed.

(** The calls of the pipeline are made once each and in order: what it
    logs is an initial part of [pipeline_calls]. *)
Lemma tryon_pipeline_calls w files st1 (r : result Response) st2 pf cf :
  files_getitem "person_image" files = Some pf ->
  files_getitem "clothing_image" files = Some cf ->
  tryon_pipeline w files st1 = (r, st2) ->
  exists size later evs,
    log st2 = evs ++ log st1 /\ later ++ evs = pipeline_calls pf cf size.
Proof.
  intros Hpf Hcf. unfold tryon_pipeline, request_file, pipeline_calls.
  rewrite Hpf, Hcf. cbn [bind lift].
  destruct (Image_open w (content pf)) as [[sz1 px1]|e1] eqn:Ho1.
  2:{ rewrite (bind_run_Raise _ _ _ _ _ (preprocess_image_undecodable w _ st1 e1 Ho1)).
      intros [= <- <-]. exists (0, 0). eexists [_; _; _; _; _], [_]. now split. }
  destruct (preprocess_image_decoded w (content pf) st1 sz1 px1 Ho1) as (pt & Hr1 & Hs1 & _).
  rewrite (bind_run_Ok _ _ _ _ _ Hr1).
  destruct (Image_open w (content cf)) as [[sz2 px2]|e2] eqn:Ho2.
  2:{ rewrite (bind_run_Raise _ _ _ _ _ (preprocess_image_undecodable w _ _ e2 Ho2)).
      intros [= <- <-]. exists (0, 0). eexists [_; _; _], [_; _; _]. now split. }
  destruct (preprocess_image_decoded w (content cf)
              (mkState (model st1) (EvResize (1024, 768) :: EvImageOpen (content pf)
                                    :: log st1)) sz2 px2 Ho2)
    as (ct & Hr2 & Hs2 & _).
  rewrite (bind_run_Ok _ _ _ _ _ Hr2). cbn [model log].
  unfold call_model, bind, get_model, emit, lift, raise, ret. cbn.
  rewrite Hs1, Hs2.
  destruct (model st1) as [g|]; cbn.
  2:{ intros [= <- <-]. exists (0, 0). eexists [_; _], [_; _; _; _]. now split. }
  destruct (forward w g pt ct) as [out|e3]; cbn.
  2:{ intros [= <- <-]. exists (0, 0). eexists [_], [_; _; _; _; _]. now split. }
  destruct (postprocess w out) as [img|e4]; cbn.
  2:{ intros [= <- <-]. exists (0, 0). eexists [_], [_; _; _; _; _]. now split. }
  destruct (save_png w img) as [png|e5]; cbn;
    intros [= <- <-]; exists (img_size img); eexists [], [_; _; _; _; _; _]; now split.
Qed.

Lemma files_contains_getitem k (files : Files) :
  files_contains k files = true -> exists f, files_getitem k files = Some f.
Proof.
  induction files as [|[k' f] rest IH]; simpl; [discriminate|].
  destruct (String.eqb k k'); simpl; eauto.
Qed.

Lemma preprocess_image_Raise w data st (e : Exn) st' :
  preprocess_image w data st = (Raise e, st') ->
  exists e0, Image_open w data = Raise e0 /\
             e = mkExn ValueError ("Error preprocessing image: " ++ exn_str e0)%string.
Proof.
  intros Hrun. destruct (Image_open w data) as [[sz pixels]|e0] eqn:Hopen.
  - destruct (preprocess_image_decoded w data st sz pixels Hopen) as (t' & Ht & _).
    rewrite Ht in Hrun. discriminate.
  - rewrite (preprocess_image_undecodable w data st e0 Hopen) in Hrun.
    injection Hrun as <- <-. now exists e0.
Qed.

(** Where the pipeline can raise, for a request with both fields and a
    bound model: decoding either upload, the network, the
    post-processing of its output, or saving the PNG. *)
Lemma tryon_pipeline_Raise w files st (g : Generator) (e : Exn) st' :
  files_contains "person_image" files = true ->
  files_contains "clothing_image" files = true ->
  model st = Some g ->
  tryon_pipeline w files st = (Raise e, st') ->
  (exists f e0,
      (files_getitem "person_image" files = Some f
       \/ files_getitem "clothing_image" files = Some f) /\
      Image_open w (content f) = Raise e0 /\
      e = mkExn ValueError ("Error preprocessing image: " ++ exn_str e0)%string)
  \/ (exists pt ct, forward w g pt ct = Raise e)
  \/ (exists output, postprocess w output = Raise e)
  \/ (exists img, save_png w img = Raise e).
Proof.
  intros Hp Hc Hg H.
  destruct (files_contains_getitem _ _ Hp) as (pf & Hpf).
  destruct (files_contains_getitem _ _ Hc) as (cf & Hcf).
  unfold tryon_pipeline, request_file in H. rewrite Hpf, Hcf in H.
  apply bind_Raise in H as [H|(a & s1 & [= <- <-] & H)]; [discriminate|].
  apply bind_Raise in H as [H|(a & s1 & [= <- <-] & H)]; [discriminate|].
  apply bind_Raise in H as [H|(pt & s1 & H1 & H)].
  { apply preprocess_image_Raise in H as (e0 & Ho & ->). left. exists pf, e0. auto. }
  apply preprocess_image_Ok in H1 as (_ & -> & _).
  apply bind_Raise in H as [H|(ct & s2 & H2 & H)].
  { apply preprocess_image_Raise in H as (e0 & Ho & ->). left. exists cf, e0. auto. }
  apply preprocess_image_Ok in H2 as (_ & -> & _).
  apply bind_Raise in H as [H|(out & s3 & H3 & H)].
  { unfold call_model, bind, get_model, emit, lift in H. cbn in H. rewrite Hg in H.
    destruct (forward w g pt ct) as [o|e1] eqn:Hf; [discriminate|].
    injection H as <- <-. right. left. eauto. }
  apply bind_Raise in H as [H|(img & s4 & H4 & H)].
  { unfold lift in H. injection H as H _. right. right. left. eauto. }
  apply bind_Raise in H as [H|([] & s5 & H5 & H)]; [discriminate|].
  apply bind_Raise in H as [H|(png & s6 & H6 & H)].
  { unfold lift in H. injection H as H _. right. right. right. eauto. }
  discriminate.
Qed.

(** A load that returns normally leaves a model bound. *)
Lemma load_model_Ok w st o st' :
  load_model w st = (Ok o, st') -> exists g, model st' = Some g.
Proof.
  destruct (model st) as [g|] eqn:Hm.
  - rewrite (load_model_loaded w st g Hm). intros [= <- <-]. eauto.
  - unfold load_model, try_except, bind, get_model, emit, raise, ret, check, lift,
      model_method, set_model.
    cbn. rewrite Hm. cbn.
    destruct (os_path_exists w _); cbn; [|discriminate].
    destruct (Generator_init w 4 4 3); cbn; [discriminate|].
    destruct (torch_load w _ _); cbn; [|discriminate].
    destruct (load_state_dict_check w _); cbn; [discriminate|].
    destruct (module_to w _); cbn; [discriminate|].
    intros [= <- <-]. cbn. eauto.
Qed.

(** The calls of a whole request with both fields are made once each and
    in order: whatever the outcome, the events it logs are an initial
    part (the oldest calls) of [request_calls]. *)
Lemma generate_tryon_body_calls w files st (r : result Response) st' pf cf :
  files_contains "person_image" files = true ->
  files_contains "clothing_image" files = true ->
  files_getitem "person_image" files = Some pf ->
  files_getitem "clothing_image" files = Some cf ->
  generate_tryon_body w files st = (r, st') ->
  exists constructed size later,
    later ++ new_events st st' = request_calls w st pf cf constructed size.
Proof.
  intros Hp Hc Hpf Hcf Hbody.
  rewrite generate_tryon_body_unfold in Hbody. unfold bind in Hbody.
  rewrite ensure_model_run in Hbody. rewrite Hp, Hc in Hbody. cbn in Hbody.
  unfold request_calls.
  destruct (load_model w st) as [[o|e0] st1] eqn:Hl; cbn in Hbody;
    destruct (load_model_calls _ _ _ _ Hl) as (b & later1 & evs1 & L1 & F1 & Hok).
  - rewrite (Hok o eq_refl) in F1. cbn in F1.
    destruct (tryon_pipeline_calls w files st1 r st' pf cf Hpf Hcf Hbody)
      as (size & later2 & evs2 & L2 & F2).
    exists b, size, later2.
    rewrite (new_events_app st st' (evs2 ++ evs1)) by now rewrite L2, L1, app_assoc.
    now rewrite app_assoc, F2, F1.
  - injection Hbody as <- <-.
    exists b, (0, 0), (pipeline_calls pf cf (0, 0) ++ later1).
    rewrite (new_events_app st st1 evs1 L1). now rewrite <- app_assoc, F1.
Qed.

(** C3: for a request with both fields, whatever the body of
    [generate_tryon] raises is answered with
    [{'success': false, 'error': str(e)}] and status 500; the handler
    itself returns.  The exception comes from the lazy load, from decoding
    an upload, from the network, or from encoding the result.  Nothing is
    retried: the library calls of the request are an initial part of the
    straight-line sequence [request_calls] (the file test, the
    constructor, [torch.load], [load_state_dict], [to], [eval] when no
    model is bound; then decode and resize of the person upload, decode
    and resize of the clothing upload, the forward pass, the save), each
    made at most once and in that order; in particular at most one
    construction, one [torch.load], one forward pass, one decode per
    upload. *)
Theorem tryon_exception_is_500 w files st (e : Exn) st' :
  files_contains "person_image" files = true ->
  files_contains "clothing_image" files = true ->
  generate_tryon_body w files st = (Raise e, st') ->
  generate_tryon w files st
  = (mkResponse 500 (JDict [("success", JBool false); ("error", JStr (exn_str e))]), st')
  /\ (exists pf cf constructed size later,
        files_getitem "person_image" files = Some pf
        /\ files_getitem "clothing_image" files = Some cf
        /\ later ++ new_events st st' = request_calls w st pf cf constructed size)
  /\ (fst (load_model w st) = Raise e
      \/ (exists f e0,
             (files_getitem "person_image" files = Some f
              \/ files_getitem "clothing_image" files = Some f) /\
             Image_open w (content f) = Raise e0 /\
             e = mkExn ValueError ("Error preprocessing image: " ++ exn_str e0)%string)
      \/ (exists g pt ct, forward w g pt ct = Raise e)
      \/ (exists output, postprocess w output = Raise e)
      \/ (exists img, save_png w img = Raise e))
  /\ count is_generator_call (new_events st st') <= 1
  /\ count is_torch_load (new_events st st') <= 1
  /\ count is_inference (new_events st st') <= 1
  /\ count is_image_open (new_events st st') <= 2.
Proof.
  intros Hp Hc Hbody.
  destruct (generate_tryon_body_emits w files) as (Ei & Eg & Et & Eo & _).
  destruct (Ei _ _ _ Hbody) as (e1 & L1 & C1).
  destruct (Eg _ _ _ Hbody) as (e2 & L2 & C2).
  destruct (Et _ _ _ Hbody) as (e3 & L3 & C3).
  destruct (Eo _ _ _ Hbody) as (e4 & L4 & C4).
  split; [unfold generate_tryon; now rewrite Hbody|].
  split.
  { destruct (files_contains_getitem _ _ Hp) as (pf & Hpf).
    destruct (files_contains_getitem _ _ Hc) as (cf & Hcf).
    destruct (generate_tryon_body_calls w files st _ st' pf cf Hp Hc Hpf Hcf Hbody)
      as (b & size & later & Hcalls).
    exists pf, cf, b, size, later. auto. }
  split.
  - rewrite generate_tryon_body_unfold in Hbody. unfold bind in Hbody.
    rewrite ensure_model_run in Hbody. rewrite Hp, Hc in Hbody. cbn in Hbody.
    destruct (load_model w st) as [[o|e0] st1] eqn:Hl; cbn in Hbody |- *.
    + destruct (load_model_Ok _ _ _ _ Hl) as (g & Hg).
      destruct (tryon_pipeline_Raise w files st1 g e st' Hp Hc Hg Hbody)
        as [H|[(pt & ct & H)|[H|H]]]; eauto 8.
    + injection Hbody as <- <-. now left.
  - rewrite (new_events_app _ _ _ L2) at 1. rewrite (new_events_app _ _ _ L3) at 1.
    rewrite (new_events_app _ _ _ L1) at 1. rewrite (new_events_app _ _ _ L4).
    auto.
Qed.

(** ** The model instance over the life of the process *)

Lemma tryon_pipeline_no_model_load w files :
  emits is_model_load 0 (tryon_pipeline w files).
Proof. eapply emits_weaken; [ repeat emits_step | cbn; lia ]. Qed.

Lemma list_models_body_keeps_model w : keeps_model (list_models_body w).
Proof. repeat keeps_step. Qed.

Lemma list_models_body_no_model_load w :
  emits is_model_load 0 (list_models_body w) /\
  emits is_construction 0 (list_models_body w).
Proof. split; (eapply emits_weaken; [ repeat emits_step | cbn; lia ]). Qed.

(** A statement that keeps the global and constructs nothing keeps
    [constructed_once]. *)
Lemma frame_constructed_once {A} (m : M St A) st (r : result A) st' :
  keeps_model m -> emits is_construction 0 m ->
  m st = (r, st') -> constructed_once st -> constructed_once st'.
Proof.
  intros Hk He Hrun Hinv. unfold constructed_once in *.
  rewrite (Hk _ _ _ Hrun). destruct (He _ _ _ Hrun) as (evs & -> & Hc).
  rewrite count_app, Hinv. lia.
Qed.

Lemma load_model_constructed_once w st r st' :
  load_model w st = (r, st') -> constructed_once st -> constructed_once st'.
Proof.
  destruct (model st) as [g|] eqn:Hm.
  - rewrite (load_model_loaded w st g Hm). now intros [= <- <-].
  - unfold constructed_once. rewrite Hm.
    unfold load_model, try_except, bind, get_model, emit, raise, ret, check, lift,
      model_method, set_model.
    cbn. rewrite Hm. cbn.
    destruct (os_path_exists w _); cbn;
      [|intros [= <- <-]; cbn; rewrite Hm; auto].
    destruct (Generator_init w 4 4 3); cbn;
      [intros [= <- <-]; cbn; rewrite Hm; auto|].
    destruct (torch_load w _ _); cbn;
      [|intros [= <- <-] Hc; cbn; unfold count in *; cbn; lia].
    destruct (load_state_dict_check w _); cbn;
      [intros [= <- <-] Hc; cbn; unfold count in *; cbn; lia|].
    destruct (module_to w _); cbn;
      intros [= <- <-] Hc; cbn; unfold count in *; cbn; lia.
Qed.

Lemma handle_constructed_once w (r : Request) st :
  constructed_once st -> constructed_once (snd (handle w r st)).
Proof.
  intros Hinv. destruct r as [|files|]; cbn [handle].
  - exact Hinv.
  - rewrite generate_tryon_run.
    destruct (load_model w st) as [[o|e] st1] eqn:Hl;
      pose proof (load_model_constructed_once _ _ _ _ Hl Hinv) as H1; [|exact H1].
    destruct (negb _ || negb _); [exact H1|].
    destruct (tryon_pipeline w files st1) as [[resp|e] st2] eqn:Hp; cbn [snd];
      exact (frame_constructed_once _ _ _ _ (tryon_pipeline_keeps_model w files)
               (tryon_pipeline_no_construction w files) Hp H1).
  - unfold list_models.
    destruct (list_models_body w st) as [[resp|e] st2] eqn:Hp; cbn [snd];
      exact (frame_constructed_once _ _ _ _ (list_models_body_keeps_model w)
               (proj2 (list_models_body_no_model_load w)) Hp Hinv).
Qed.

Lemma serve_constructed_once (rs : list (World * Request)) st :
  constructed_once st -> constructed_once (snd (serve rs st)).
Proof.
  revert st. induction rs as [|[w r] rest IH]; intros st Hinv; cbn [serve].
  - exact Hinv.
  - pose proof (handle_constructed_once w r st Hinv) as H1.
    destruct (handle w r st) as [resp st1]. cbn [snd] in H1.
    specialize (IH st1 H1). destruct (serve rest st1) as [resps st2]. exact IH.
Qed.

(** With a model bound, a request leaves it bound and loads nothing. *)
Lemma handle_loaded w (r : Request) st (g : Generator) :
  model st = Some g ->
  model (snd (handle w r st)) = Some g /\
  count is_model_load (new_events st (snd (handle w r st))) = 0.
Proof.
  intros Hm.
  assert (Hnil : new_events st st = []) by (apply new_events_app; reflexivity).
  assert (Hframe : forall A (m : M St A) r0 st',
             keeps_model m -> emits is_model_load 0 m -> m st = (r0, st') ->
             model st' = Some g /\ count is_model_load (new_events st st') = 0).
  { intros A m r0 st' Hk He Hrun. rewrite (Hk _ _ _ Hrun).
    destruct (He _ _ _ Hrun) as (evs & L & C).
    rewrite (new_events_app _ _ _ L). split; [assumption | lia]. }
  destruct r as [|files|]; cbn [handle].
  - cbn. rewrite Hnil. auto.
  - rewrite generate_tryon_run, (load_model_loaded w st g Hm).
    destruct (negb _ || negb _); [cbn; rewrite Hnil; auto|].
    destruct (tryon_pipeline w files st) as [[resp|e] st2] eqn:Hp; cbn [snd];
      exact (Hframe _ _ _ _ (tryon_pipeline_keeps_model w files)
               (tryon_pipeline_no_model_load w files) Hp).
  - unfold list_models.
    destruct (list_models_body w st) as [[resp|e] st2] eqn:Hp; cbn [snd];
      exact (Hframe _ _ _ _ (list_models_body_keeps_model w)
               (proj1 (list_models_body_no_model_load w)) Hp).
Qed.

(** C5: served one request at a time, the process constructs at most one
    [Generator]; once [model] is bound, [load_model] returns that very
    object and touches nothing (no construction, no weights read, no log
    entry), the start-up load does nothing, and no request handler
    rebinds or changes it. *)
Theorem model_created_once :
  (forall w0 (rs : list (@World F Checkpoint * Request)),
      count is_construction (log (snd (serve rs (startup w0 initial_state)))) <= 1)
  /\ (forall w st (g : Generator),
        model st = Some g ->
        load_model w st = (Ok (Some g), st)
        /\ startup w st = st
        /\ forall r : Request,
             model (snd (handle w r st)) = Some g
             /\ count is_model_load (new_events st (snd (handle w r st))) = 0).
Proof.
  split.
  - intros w0 rs.
    assert (H0 : constructed_once (startup w0 (@initial_state Checkpoint))).
    { unfold startup.
      destruct (load_model w0 initial_state) as [r st1] eqn:Hl. cbn [snd].
      apply (load_model_constructed_once _ _ _ _ Hl). reflexivity. }
    pose proof (serve_constructed_once rs _ H0) as H. unfold constructed_once in H.
    rewrite H. destruct (is_not_None _); lia.
  - intros w st g Hm. split; [exact (load_model_loaded w st g Hm)|].
    split; [unfold startup; now rewrite (load_model_loaded w st g Hm)|].
    intros r. exact (handle_loaded w r st g Hm).
Qed.

(** ** health_check *)

(** What [/health] reports: four keys, ['healthy'], and whether the global
    is bound. *)
Lemma health_check_response w st :
  dict_keys (body (fst (health_check w st)))
  = ["status"; "device"; "cuda_available"; "model_loaded"]
  /\ status (fst (health_check w st)) = 200
  /\ json_field "status" (body (fst (health_check w st))) = Some (JStr "healthy")
  /\ json_field "model_loaded" (body (fst (health_check w st)))
     = Some (JBool (is_not_None (model st))).
Proof. repeat split. Qed.

Lemma serve_health (ws : list (@World F Checkpoint)) st :
  serve (map (fun w => (w, GET_health)) ws) st
  = (map (fun w => fst (health_check w st)) ws, st).
Proof.
  induction ws as [|w ws IH]; cbn [map serve handle]; [reflexivity|].
  unfold health_check at 1. now rewrite IH.
Qed.

(** C10: [/health] leaves the state as it found it (the global and the
    log of library calls alike, so nothing was loaded), and any run of
    consecutive [/health] requests reports one and the same
    ['model_loaded']. *)
Theorem health_check_changes_nothing :
  (forall w st, snd (health_check w st) = st)
  /\ (forall (ws : list (@World F Checkpoint)) st,
        snd (serve (map (fun w => (w, GET_health)) ws) st) = st
        /\ Forall (fun resp =>
                     json_field "model_loaded" (body resp)
                     = Some (JBool (is_not_None (model st))))
                  (fst (serve (map (fun w => (w, GET_health)) ws) st))).
Proof.
  split; [reflexivity|]. intros ws st. rewrite serve_health. cbn [fst snd].
  split; [reflexivity|]. apply Forall_forall. intros resp Hin.
  apply in_map_iff in Hin as (w & <- & _). reflexivity.
Qed.

(** ** list_models *)

(** C9, as the code has it: [/api/models] answers 200 with the names in
    the checkpoint directory that end in ['.pkl'], in the order
    [os.listdir] gives them, and with ['gen.pkl'] as the selected model;
    with no such directory the list is empty and the status is still
    200.  When the path exists and [os.listdir] raises on it, the answer
    is [{'error': str(e)}] with status 500. *)
Theorem list_models_response w st :
  (os_path_exists w (CHECKPOINT_DIR w) = false ->
     fst (list_models w st)
     = mkResponse 200
         (JDict [("available_models", JList []); ("selected_model", JStr "gen.pkl")]))
  /\ (forall names,
        os_path_exists w (CHECKPOINT_DIR w) = true ->
        os_listdir w (CHECKPOINT_DIR w) = Ok names ->
        exists L,
          fst (list_models w st)
          = mkResponse 200
              (JDict [("available_models", JList (map JStr L));
                      ("selected_model", JStr "gen.pkl")])
          /\ L = filter (fun f => endswith f ".pkl") names
          /\ forall f, In f L <-> In f names /\ exists stem, f = (stem ++ ".pkl")%string)
  /\ (forall e,
        os_path_exists w (CHECKPOINT_DIR w) = true ->
        os_listdir w (CHECKPOINT_DIR w) = Raise e ->
        fst (list_models w st) = mkResponse 500 (JDict [("error", JStr (exn_str e))])).
Proof.
  unfold list_models, list_models_body, bind, emit, lift, ret. cbn. split; [|split].
  - intros ->. reflexivity.
  - intros names -> ->. cbn. eexists. split; [reflexivity|]. split; [reflexivity|].
    intros f. rewrite filter_In, endswith_spec. reflexivity.
  - intros e -> ->. reflexivity.
Qed.

(** C2: a byte string that decodes gives a tensor of shape
    (1, 3, 768, 1024), whatever the size of the decoded image; its
    element (0, c, y, x) is band c of pixel (y, x) of the image resized
    to 1024 x 768, divided by 255, less the mean of channel c, divided by
    the standard deviation of channel c. *)
Theorem preprocess_image_normalized w data st sz pixels :
  Image_open w data = Ok (sz, pixels) ->
  exists t st',
    preprocess_image w data st = (Ok t, st') /\
    shape t = [1; 3; 768; 1024] /\
    img_size (Image_resize w (1024, 768) (mkImage sz 3 pixels)) = (1024, 768) /\
    forall c y x, c < 3 ->
      elem t [0; c; y; x] =
        f32_div
          (f32_sub
             (f32_div
                (f32_of_u8 (px (Image_resize w (1024, 768) (mkImage sz 3 pixels)) y x c))
                (f32_lit 255%Q))
             (nth c [f32_lit 0.485%Q; f32_lit 0.456%Q; f32_lit 0.406%Q] (f32_lit 0%Q)))
          (nth c [f32_lit 0.229%Q; f32_lit 0.224%Q; f32_lit 0.225%Q] (f32_lit 0%Q)).
Proof.
  intros Hopen.
  destruct (preprocess_image_decoded w data st sz pixels Hopen) as (t & Hrun & Hs & Hv).
  exists t. eexists. split; [exact Hrun|]. split; [exact Hs|]. split; [reflexivity|exact Hv].
Qed.

End Properties.

(** ** The service on the sample worlds *)

Import Sample.

Section LoadFailure.

Context {F : Type} {Checkpoint : Type}.

(** [load_model] binds the global to the fresh [Generator] before it reads
    the checkpoint: when [torch.load] raises, the exception leaves
    [load_model] and the global stays bound to a module that has no
    weights, is on the CPU and is in training mode. *)
Lemma load_model_failed_weights (w : @World F Checkpoint) (st : State) (e : Exn) :
  model st = None ->
  os_path_exists w (os_path_join (CHECKPOINT_DIR w) "gen.pkl") = true ->
  Generator_init w 4 4 3 = None ->
  torch_load w (os_path_join (CHECKPOINT_DIR w) "gen.pkl") (DEVICE w) = Raise e ->
  fst (load_model w st) = Raise e
  /\ model (snd (load_model w st)) = Some (mkGenerator (4, 4, 3) None cpu true)
  /\ weights_loaded (snd (load_model w st)) = false.
Proof.
  intros Hm Hex Hgen Hload.
  unfold weights_loaded, load_model, try_except, bind, get_model, emit, raise, ret,
    check, lift, set_model.
  cbn. rewrite Hm. cbn. rewrite Hex. cbn. rewrite Hgen. cbn. rewrite Hload. cbn.
  repeat split.
Qed.

End LoadFailure.

(** C6: [/health] always has the four keys and ['healthy'], and
    ['model_loaded'] is [model is not None].  After a start-up load that
    failed in [torch.load] the global is bound to a [Generator] without
    weights: [/health] then reports ['model_loaded': true], and the next
    try-on request loads nothing and answers 200 from that module. *)
Theorem health_after_failed_weight_load :
  fst (load_model Sample.w_corrupt initial_state)
  = Raise (mkExn (OtherError "UnpicklingError") "invalid load key")
  /\ model (startup Sample.w_corrupt initial_state)
     = Some (mkGenerator (4, 4, 3) None cpu true)
  /\ weights_loaded (startup Sample.w_corrupt initial_state) = false
  /\ fst (health_check Sample.w_corrupt (startup Sample.w_corrupt initial_state))
     = mkResponse 200
         (JDict [("status", JStr "healthy"); ("device", JStr "cpu");
                 ("cuda_available", JBool false); ("model_loaded", JBool true)])
  /\ status (fst (generate_tryon Sample.w_ok Sample.both_files
                    (startup Sample.w_corrupt initial_state))) = 200
  /\ count is_model_load
       (new_events (startup Sample.w_corrupt initial_state)
          (snd (generate_tryon Sample.w_ok Sample.both_files
                  (startup Sample.w_corrupt initial_state)))) = 0
  /\ weights_loaded (snd (generate_tryon Sample.w_ok Sample.both_files
                            (startup Sample.w_corrupt initial_state))) = false.
Proof. repeat split; vm_compute; reflexivity. Qed.

(** C1 as stated fails: with no checkpoint on disk and no model bound, a
    request without files is answered 500, not 400. *)
Lemma tryon_missing_fields_counterexample :
  ~ (forall (w : @World Q string) (files : Files) (st : State),
        status (fst (generate_tryon w files st)) = 400 <->
        (files_contains "person_image" files = false
         \/ files_contains "clothing_image" files = false)).
Proof.
  intros H.
  destruct (H Sample.w_no_checkpoint [] initial_state) as [_ H400].
  specialize (H400 (or_introl eq_refl)). vm_compute in H400. discriminate.
Qed.

Lemma tryon_missing_fields_witness :
  status (fst (generate_tryon Sample.w_ok Sample.person_only initial_state)) = 400
  /\ status (fst (generate_tryon Sample.w_no_checkpoint Sample.person_only initial_state)) = 500
  /\ count is_inference
       (new_events initial_state
          (snd (generate_tryon Sample.w_ok Sample.person_only initial_state))) = 0.
Proof.
  pose proof (tryon_missing_fields Sample.w_ok Sample.person_only initial_state)
    as (H400 & _ & Habs).
  pose proof (tryon_missing_fields Sample.w_no_checkpoint Sample.person_only initial_state)
    as (_ & _ & Habs').
  split; [apply H400; split; [right|]; reflexivity|].
  split; [apply Habs'; [right|]; reflexivity|].
  apply Habs. right. reflexivity.
Defined.

Lemma preprocess_image_normalized_witness :
  Image_open Sample.w_ok [Byte.xff; Byte.x00] = Ok ((2, 1), snd (match Image_open Sample.w_ok [Byte.xff; Byte.x00] with Ok o => o | Raise _ => ((0, 0), fun _ _ _ => 0%Z) end))
  /\ exists t st',
       preprocess_image Sample.w_ok [Byte.xff; Byte.x00] initial_state = (Ok t, st')
       /\ shape t = [1; 3; 768; 1024]
       /\ Qeq (elem t [0; 0; 5; 100]) ((255 / 255 - 0.485) / 0.229)%Q
       /\ Qeq (elem t [0; 2; 5; 1000]) ((0 / 255 - 0.406) / 0.225)%Q.
Proof.
  split; [reflexivity|].
  destruct (preprocess_image_normalized Sample.w_ok [Byte.xff; Byte.x00] initial_state
              (2, 1) _ eq_refl) as (t & st' & Hrun & Hs & _ & Hv).
  exists t, st'. split; [exact Hrun|]. split; [exact Hs|].
  split; [rewrite (Hv 0 5 100) | rewrite (Hv 2 5 1000)]; try lia; vm_compute; reflexivity.
Defined.

Lemma tryon_exception_is_500_witness :
  files_contains "person_image" Sample.both_files = true
  /\ files_contains "clothing_image" Sample.both_files = true
  /\ fst (generate_tryon_body Sample.w_oom Sample.both_files Sample.loaded_state)
     = Raise (mkExn RuntimeError "CUDA out of memory")
  /\ fst (generate_tryon Sample.w_oom Sample.both_files Sample.loaded_state)
     = mkResponse 500
         (JDict [("success", JBool false); ("error", JStr "CUDA out of memory")])
  /\ count is_inference
       (new_events Sample.loaded_state
          (snd (generate_tryon_body Sample.w_oom Sample.both_files Sample.loaded_state))) <= 1
  /\ exists pf cf constructed size later,
       later
       ++ new_events Sample.loaded_state
            (snd (generate_tryon_body Sample.w_oom Sample.both_files Sample.loaded_state))
       = request_calls Sample.w_oom Sample.loaded_state pf cf constructed size.
Proof.
  assert (Hbody : generate_tryon_body Sample.w_oom Sample.both_files Sample.loaded_state
                  = (Raise (mkExn RuntimeError "CUDA out of memory"),
                     snd (generate_tryon_body Sample.w_oom Sample.both_files
                            Sample.loaded_state)))
    by (vm_compute; reflexivity).
  destruct (tryon_exception_is_500 Sample.w_oom Sample.both_files Sample.loaded_state
              _ _ eq_refl eq_refl Hbody)
    as (Hresp & (pf & cf & b & size & later & _ & _ & Hcalls) & _ & _ & _ & Hinf & _).
  split; [reflexivity|]. split; [reflexivity|].
  split; [now rewrite Hbody|]. split; [now rewrite Hresp|]. split; [exact Hinf|].
  exists pf, cf, b, size, later. exact Hcalls.
Defined.

Lemma load_model_missing_checkpoint_witness :
  model (@initial_state string) = None
  /\ os_path_exists Sample.w_no_checkpoint
       (os_path_join (CHECKPOINT_DIR Sample.w_no_checkpoint) "gen.pkl") = false
  /\ fst (load_model Sample.w_no_checkpoint initial_state)
     = Raise (mkExn FileNotFoundError
                "Model checkpoint not found at ./VITON-HD/checkpoints/gen.pkl")
  /\ model (snd (load_model Sample.w_no_checkpoint initial_state)) = None.
Proof.
  split; [reflexivity|]. split; [reflexivity|].
  exact (load_model_missing_checkpoint Sample.w_no_checkpoint initial_state
           eq_refl eq_refl).
Defined.

Lemma model_created_once_witness :
  model Sample.loaded_state = Some Sample.loaded_generator
  /\ load_model Sample.w_no_checkpoint Sample.loaded_state
     = (Ok (Some Sample.loaded_generator), Sample.loaded_state)
  /\ model (snd (handle Sample.w_ok (POST_api_tryon Sample.both_files) Sample.loaded_state))
     = Some Sample.loaded_generator
  /\ count is_construction
       (log (snd (serve [(Sample.w_ok, POST_api_tryon Sample.both_files);
                         (Sample.w_ok, GET_health);
                         (Sample.w_ok, POST_api_tryon Sample.both_files)]
                   (startup Sample.w_no_checkpoint initial_state)))) <= 1.
Proof.
  pose proof (@model_created_once Q Sample.exact_arith string) as (Hrun & Hloaded).
  destruct (Hloaded Sample.w_no_checkpoint Sample.loaded_state Sample.loaded_generator
              eq_refl) as (Hload & _ & _).
  destruct (Hloaded Sample.w_ok Sample.loaded_state Sample.loaded_generator eq_refl)
    as (_ & _ & Hreq).
  split; [reflexivity|]. split; [exact Hload|].
  split; [exact (proj1 (Hreq (POST_api_tryon Sample.both_files)))|]. apply Hrun.
Defined.

Lemma tryon_result_image_witness :
  status (fst (generate_tryon Sample.w_ok Sample.both_files initial_state)) = 200
  /\ json_field "result_image"
       (body (fst (generate_tryon Sample.w_ok Sample.both_files initial_state)))
     = Some (JStr "data:image/png;base64,iVBORw==")
  /\ exists png text,
       json_field "result_image"
         (body (fst (generate_tryon Sample.w_ok Sample.both_files initial_state)))
       = Some (JStr ("data:image/png;base64," ++ text)%string)
       /\ b64decode text = Some png.
Proof.
  assert (H200 : status (fst (generate_tryon Sample.w_ok Sample.both_files initial_state))
                 = 200) by (vm_compute; reflexivity).
  split; [exact H200|]. split; [vm_compute; reflexivity|].
  destruct (tryon_result_image Sample.w_ok Sample.both_files initial_state H200)
    as (g & pt & ct & out & img & png & _ & _ & _ & _ & _ & text & Hfield & Hdec).
  exists png, text. split; [exact Hfield | exact Hdec].
Defined.

(** The handler itself never resizes what the network returns: with a
    network that halves the resolution the request succeeds and the
    image that is encoded is 512 x 384. *)
Lemma tryon_image_size_counterexample :
  ~ (forall (w : @World Q string) (files : Files) (st : State),
        status (fst (generate_tryon w files st)) = 200 ->
        forall size,
          In (EvSavePng size) (new_events st (snd (generate_tryon w files st))) ->
          size = (1024, 768)).
Proof.
  intros H.
  assert (H200 : status (fst (generate_tryon Sample.w_half Sample.both_files initial_state))
                 = 200) by (vm_compute; reflexivity).
  assert (Hin : In (EvSavePng (512, 384))
                  (new_events initial_state
                     (snd (generate_tryon Sample.w_half Sample.both_files initial_state))))
    by (vm_compute; left; reflexivity).
  pose proof (H _ _ _ H200 _ Hin) as E.
  apply (f_equal (fun p => Nat.eqb (fst p) 1024)) in E. vm_compute in E. discriminate.
Qed.


Lemma tryon_image_size_witness :
  status (fst (generate_tryon Sample.w_half Sample.both_files initial_state)) = 200
  /\ exists h wd,
       (forall size,
           In (EvSavePng size)
              (new_events initial_state
                 (snd (generate_tryon Sample.w_half Sample.both_files initial_state)))
           <-> size = (wd, h))
       /\ In (EvForward [1; 3; 768; 1024] [1; 3; 768; 1024])
            (new_events initial_state
               (snd (generate_tryon Sample.w_half Sample.both_files initial_state))).
Proof.
  assert (H200 : status (fst (generate_tryon Sample.w_half Sample.both_files initial_state))
                 = 200) by (vm_compute; reflexivity).
  split; [exact H200|].
  destruct (tryon_image_size Sample.w_half Sample.both_files initial_state H200)
    as (g & pt & ct & out & n & ch & h & wd & _ & _ & _ & _ & Hfw & Hsz & _).
  exists h, wd. split; [exact Hsz | exact Hfw].
Defined.

(** C9 as stated fails: when the checkpoint path exists and cannot be
    listed, the answer is not the listing payload but a 500. *)
Lemma list_models_response_counterexample :
  ~ (forall (w : @World Q string) (st : State),
        exists L,
          fst (list_models w st)
          = mkResponse 200
              (JDict [("available_models", JList (map JStr L));
                      ("selected_model", JStr "gen.pkl")])).
Proof.
  intros H. destruct (H Sample.w_unlistable initial_state) as (L & HL).
  apply (f_equal (fun r => Nat.eqb (status r) 500)) in HL. vm_compute in HL.
  discriminate.
Qed.

Lemma list_models_response_witness :
  os_path_exists Sample.w_ok (CHECKPOINT_DIR Sample.w_ok) = true
  /\ os_listdir Sample.w_ok (CHECKPOINT_DIR Sample.w_ok)
     = Ok ["gen.pkl"; "notes.txt"; "seg.pkl"]
  /\ fst (list_models Sample.w_ok initial_state)
     = mkResponse 200
         (JDict [("available_models", JList [JStr "gen.pkl"; JStr "seg.pkl"]);
                 ("selected_model", JStr "gen.pkl")])
  /\ fst (list_models Sample.w_no_checkpoint initial_state)
     = mkResponse 200
         (JDict [("available_models", JList []); ("selected_model", JStr "gen.pkl")]).
Proof.
  split; [reflexivity|]. split; [reflexivity|].
  destruct (list_models_response Sample.w_ok initial_state) as (_ & Hdir & _).
  destruct (Hdir _ eq_refl eq_refl) as (L & Hresp & -> & _).
  split; [exact Hresp|].
  exact (proj1 (list_models_response Sample.w_no_checkpoint initial_state) eq_refl).
Defined.

(** * Further properties of the service *)

Section MoreProperties.

Context {F : Type} {F32 : Float32 F} {Checkpoint : Type}.
Implicit Types (w : @World F Checkpoint) (st : @State Checkpoint).
Local Open Scope py_scope.
Local Abbreviation St := (@State Checkpoint).

(** ** load_model from an unbound global *)

Lemma load_model_unbound_iff w st (o : option Generator) st' :
  model st = None ->
  load_model w st = (Ok o, st') <->
  os_path_exists w (os_path_join (CHECKPOINT_DIR w) "gen.pkl") = true
  /\ Generator_init w 4 4 3 = None
  /\ exists checkpoint,
       torch_load w (os_path_join (CHECKPOINT_DIR w) "gen.pkl") (DEVICE w) = Ok checkpoint
       /\ load_state_dict_check w checkpoint = None
       /\ module_to w (DEVICE w) = None
       /\ o = Some (mkGenerator (4, 4, 3) (Some checkpoint) (DEVICE w) false)
       /\ st' = mkState o
                  (EvEval :: EvTo :: EvLoadStateDict
                   :: EvTorchLoad (os_path_join (CHECKPOINT_DIR w) "gen.pkl")
                   :: EvGenerator true
                   :: EvPathExists (os_path_join (CHECKPOINT_DIR w) "gen.pkl")
                   :: log st).
Proof.
  intros Hm.
  unfold load_model, try_except, bind, get_model, emit, raise, ret, check, lift,
    model_method, set_model.
  cbn. rewrite Hm. cbn.
  destruct (os_path_exists w _); cbn;
    [|split; [discriminate | intros (H & _); discriminate]].
  destruct (Generator_init w 4 4 3); cbn;
    [split; [discriminate | intros (_ & H & _); discriminate]|].
  destruct (torch_load w _ _) as [ck|e]; cbn;
    [|split; [discriminate | intros (_ & _ & ck & H & _); discriminate]].
  destruct (load_state_dict_check w ck) eqn:Hck; cbn;
    [split; [discriminate | intros (_ & _ & ck' & [= <-] & H & _); congruence]|].
  destruct (module_to w _); cbn;
    [split; [discriminate | intros (_ & _ & ck' & _ & _ & H & _); discriminate]|].
  split.
  - intros [= <- <-]. repeat split. exists ck. repeat split. assumption.
  - intros (_ & _ & ck' & [= <-] & _ & _ & -> & ->). reflexivity.
Qed.

(** X2: when the constructor raises (the import of [networks] failed, so
    the name is undefined), [load_model] raises that exception, the
    global stays [None] and the checkpoint is never read. *)
Theorem load_model_constructor_raises w st (e : Exn) :
  model st = None ->
  os_path_exists w (os_path_join (CHECKPOINT_DIR w) "gen.pkl") = true ->
  Generator_init w 4 4 3 = Some e ->
  fst (load_model w st) = Raise e
  /\ model (snd (load_model w st)) = None
  /\ count is_weight_load (new_events st (snd (load_model w st))) = 0.
Proof.
  intros Hm Hex Hgen.
  assert (Hrun : load_model w st
                 = (Raise e,
                    mkState None
                      ([EvGenerator false;
                        EvPathExists (os_path_join (CHECKPOINT_DIR w) "gen.pkl")]
                       ++ log st))).
  { unfold load_model, try_except, bind, get_model, emit, raise, ret, check, lift,
      model_method, set_model.
    cbn. rewrite Hm. cbn. rewrite Hex. cbn. rewrite Hgen. cbn. now rewrite Hm. }
  rewrite Hrun. cbn [fst snd model]. split; [reflexivity|]. split; [reflexivity|].
  erewrite new_events_app; [|cbn [log]; reflexivity]. reflexivity.
Qed.

(** X1: a load from an unbound global returns normally exactly when the
    five steps succeed: the checkpoint file exists, the constructor
    returns, [torch.load] reads it, [load_state_dict] accepts it and
    [to(DEVICE)] works.  The model returned is then the global, with the
    weights [torch.load] read, on [DEVICE] and in eval mode, and the
    library calls were made in that order, once each. *)
Theorem load_model_success w st (o : option Generator) st' :
  model st = None ->
  load_model w st = (Ok o, st') <->
  os_path_exists w (os_path_join (CHECKPOINT_DIR w) "gen.pkl") = true
  /\ Generator_init w 4 4 3 = None
  /\ exists checkpoint,
       torch_load w (os_path_join (CHECKPOINT_DIR w) "gen.pkl") (DEVICE w) = Ok checkpoint
       /\ load_state_dict_check w checkpoint = None
       /\ module_to w (DEVICE w) = None
       /\ o = Some (mkGenerator (4, 4, 3) (Some checkpoint) (DEVICE w) false)
       /\ st' = mkState o
                  (EvEval :: EvTo :: EvLoadStateDict
                   :: EvTorchLoad (os_path_join (CHECKPOINT_DIR w) "gen.pkl")
                   :: EvGenerator true
                   :: EvPathExists (os_path_join (CHECKPOINT_DIR w) "gen.pkl")
                   :: log st).
Proof. exact (load_model_unbound_iff w st o st'). Qed.

Lemma load_model_unbound_Ok w st (o : option Generator) st' :
  model st = None -> load_model w st = (Ok o, st') ->
  model st' = o /\ weights_loaded st' = true
  /\ count is_model_load (new_events st st') = 5.
Proof.
  intros Hm Hl. apply (load_model_unbound_iff w st o st' Hm) in Hl
    as (_ & _ & ck & _ & _ & _ & -> & ->).
  split; [reflexivity|]. split; [reflexivity|].
  erewrite new_events_app;
    [|cbn [log]; change (?a :: ?b :: ?c :: ?d :: ?e :: ?f :: log st)
                  with ([a; b; c; d; e; f] ++ log st); reflexivity].
  reflexivity.
Qed.

(** ** generate_tryon: what a request does to the process *)

(** X3: the lazy load comes first, so a request that is rejected for a
    missing field has still loaded the model: from an unbound global and
    in a world where the load works, the answer is the 400 payload and
    the process is left with the model bound, weights read. *)
Theorem tryon_rejected_request_loads_model w files st (o : option Generator) st1 :
  model st = None ->
  load_model w st = (Ok o, st1) ->
  files_contains "person_image" files = false
  \/ files_contains "clothing_image" files = false ->
  generate_tryon w files st
  = (mkResponse 400
       (JDict [("error", JStr "Missing required files: person_image, clothing_image")]),
     st1)
  /\ model st1 = o
  /\ weights_loaded st1 = true
  /\ count is_model_load (new_events st st1) = 5.
Proof.
  intros Hm Hl Habs. split; [|exact (load_model_unbound_Ok w st o st1 Hm Hl)].
  rewrite generate_tryon_run, Hl.
  apply field_absent_true_iff in Habs. rewrite Habs. reflexivity.
Qed.

(** X4: unless the answer is a 500, a try-on request leaves a model
    bound, and no later request of any kind constructs a model or reads
    weights again. *)
Theorem tryon_lazy_load_persists w files st :
  status (fst (generate_tryon w files st)) <> 500 ->
  exists g : Generator,
    model (snd (generate_tryon w files st)) = Some g
    /\ forall w' (r : Request),
         model (snd (handle w' r (snd (generate_tryon w files st)))) = Some g
         /\ count is_model_load
              (new_events (snd (generate_tryon w files st))
                 (snd (handle w' r (snd (generate_tryon w files st))))) = 0.
Proof.
  intros Hs.
  assert (Hbound : exists g : Generator, model (snd (generate_tryon w files st)) = Some g).
  { revert Hs. rewrite generate_tryon_run.
    destruct (load_model w st) as [[o|e] st1] eqn:Hl; cbn [fst snd];
      [|intros H; now contradiction H].
    destruct (load_model_Ok _ _ _ _ Hl) as (g & Hg).
    destruct (negb _ || negb _); cbn [fst snd]; [eauto|].
    destruct (tryon_pipeline w files st1) as [[r|e] st2] eqn:Hp; cbn [fst snd];
      [|intros H; now contradiction H].
    intros _. exists g. now rewrite (tryon_pipeline_keeps_model w files _ _ _ Hp). }
  destruct Hbound as (g & Hg). exists g. split; [exact Hg|].
  intros w' r. exact (handle_loaded w' r _ g Hg).
Qed.

(** X5: every answer of [/api/tryon] has one of three forms: 200 with the
    keys success (true), result_image, message; 400 with the single key
    error; 500 with the keys success (false), error. *)
Theorem tryon_response_forms w files st :
  (status (fst (generate_tryon w files st)) = 200
   /\ dict_keys (body (fst (generate_tryon w files st)))
      = ["success"; "result_image"; "message"]
   /\ json_field "success" (body (fst (generate_tryon w files st))) = Some (JBool true))
  \/ (status (fst (generate_tryon w files st)) = 400
      /\ dict_keys (body (fst (generate_tryon w files st))) = ["error"])
  \/ (status (fst (generate_tryon w files st)) = 500
      /\ dict_keys (body (fst (generate_tryon w files st))) = ["success"; "error"]
      /\ json_field "success" (body (fst (generate_tryon w files st)))
         = Some (JBool false)).
Proof.
  rewrite generate_tryon_run.
  destruct (load_model w st) as [[o|e] st1]; cbn [fst snd];
    [|right; right; repeat split].
  destruct (negb _ || negb _); cbn [fst snd]; [right; left; repeat split|].
  destruct (tryon_pipeline w files st1) as [[r|e] st2] eqn:Hp; cbn [fst snd];
    [|right; right; repeat split].
  apply tryon_pipeline_Ok in Hp
    as (pf & cf & pt & ct & g & out & img & png & _ & _ & _ & _ & _ & _ & _ & _ & -> & _).
  left. repeat split.
Qed.

(** ** generate_tryon: the uploads *)

Lemma files_contains_is_not_None k (files : Files) :
  files_contains k files = is_not_None (files_getitem k files).
Proof.
  induction files as [|[k' f] rest IH]; simpl; [reflexivity|].
  destruct (String.eqb k k'); simpl; [reflexivity | exact IH].
Qed.

Lemma field_absent_false k1 k2 (files : Files) f1 f2 :
  files_getitem k1 files = Some f1 -> files_getitem k2 files = Some f2 ->
  negb (files_contains k1 files) || negb (files_contains k2 files) = false.
Proof.
  intros H1 H2. rewrite !files_contains_is_not_None, H1, H2. reflexivity.
Qed.

(** X6: when the person upload cannot be decoded, the answer is a 500
    whose error is ['Error preprocessing image: '] followed by the
    decoder's message; after the load, the only library call is that one
    decode: the clothing upload is not opened and the network is not
    run. *)
Theorem tryon_undecodable_person w files st (o : option Generator) st1 pf cf e0 :
  load_model w st = (Ok o, st1) ->
  files_getitem "person_image" files = Some pf ->
  files_getitem "clothing_image" files = Some cf ->
  Image_open w (content pf) = Raise e0 ->
  fst (generate_tryon w files st)
  = mkResponse 500
      (JDict [("success", JBool false);
              ("error", JStr ("Error preprocessing image: " ++ exn_str e0)%string)])
  /\ new_events st1 (snd (generate_tryon w files st)) = [EvImageOpen (content pf)].
Proof.
  intros Hl Hpf Hcf Hopen.
  rewrite generate_tryon_run, Hl, (field_absent_false _ _ _ _ _ Hpf Hcf).
  unfold tryon_pipeline, request_file. rewrite Hpf, Hcf. cbn [bind lift].
  rewrite (bind_run_Raise _ _ _ _ _ (preprocess_image_undecodable w _ st1 e0 Hopen)).
  cbn [fst snd]. split; [reflexivity|]. now apply new_events_app.
Qed.

(** X7: when the person upload decodes and the clothing upload does not,
    the answer is the same kind of 500 with the clothing decoder's
    message; the person image was decoded and resized, and the network is
    not run. *)
Theorem tryon_undecodable_clothing w files st (o : option Generator) st1
    pf cf sz pixels e0 :
  load_model w st = (Ok o, st1) ->
  files_getitem "person_image" files = Some pf ->
  files_getitem "clothing_image" files = Some cf ->
  Image_open w (content pf) = Ok (sz, pixels) ->
  Image_open w (content cf) = Raise e0 ->
  fst (generate_tryon w files st)
  = mkResponse 500
      (JDict [("success", JBool false);
              ("error", JStr ("Error preprocessing image: " ++ exn_str e0)%string)])
  /\ new_events st1 (snd (generate_tryon w files st))
     = [EvImageOpen (content cf); EvResize (1024, 768); EvImageOpen (content pf)].
Proof.
  intros Hl Hpf Hcf Hopen1 Hopen2.
  rewrite generate_tryon_run, Hl, (field_absent_false _ _ _ _ _ Hpf Hcf).
  unfold tryon_pipeline, request_file. rewrite Hpf, Hcf. cbn [bind lift].
  destruct (preprocess_image_decoded w (content pf) st1 sz pixels Hopen1)
    as (pt & Hrun & _).
  rewrite (bind_run_Ok _ _ _ _ _ Hrun).
  rewrite (bind_run_Raise _ _ _ _ _ (preprocess_image_undecodable w _ _ e0 Hopen2)).
  cbn [fst snd]. split; [reflexivity|].
  apply new_events_app. cbn [log]. reflexivity.
Qed.


(** ** The post-processing block and the success path *)

Lemma postprocess_4d w (output : Tensor F) n ch h wd :
  shape output = [n; ch; h; wd] -> n <> 0 -> fromarray_accepts w ch = true ->
  exists img, postprocess w output = Ok img
              /\ img_size img = (wd, h) /\ img_bands img = ch.
Proof.
  intros Hs Hn Hacc. unfold postprocess, index0. rewrite Hs.
  destruct n as [|n]; [contradiction|]. cbn [Nat.eqb].
  unfold permute. cbn. unfold Image_fromarray. cbn. rewrite Hacc.
  eexists. repeat split.
Qed.

(** X12: the post-processing accepts only a four-dimensional output
    (N, C, H, W) with N at least 1 and a channel count PIL has a mode
    for, and every such output with a non-empty image plane is accepted.
    The image is W x H with C bands and is made from the first sample of
    the batch alone. *)
Theorem postprocess_accepts w (output : Tensor F) :
  (forall img,
      postprocess w output = Ok img ->
      exists n ch h wd,
        shape output = [n; ch; h; wd] /\ 1 <= n /\ fromarray_accepts w ch = true
        /\ img_size img = (wd, h) /\ img_bands img = ch
        /\ forall y x c, px img y x c = to_pixel (denormalize (elem output [0; c; y; x])))
  /\ (forall n ch h wd,
        shape output = [n; ch; h; wd] ->
        1 <= n -> 1 <= h -> 1 <= wd -> fromarray_accepts w ch = true ->
        exists img, postprocess w output = Ok img).
Proof.
  split.
  - intros img. unfold postprocess, index0.
    destruct (shape output) as [|n [|ch [|h [|wd [|d rest]]]]] eqn:Hs;
      try discriminate;
      destruct (n =? 0)%nat eqn:Hn; try discriminate;
      unfold permute; cbn; rewrite ?andb_false_r; try discriminate.
    unfold Image_fromarray. cbn.
    destruct (fromarray_accepts w ch) eqn:Hacc; [|discriminate].
    intros [= <-]. exists n, ch, h, wd. cbn. apply Nat.eqb_neq in Hn.
    repeat split; try reflexivity; try assumption. lia.
  - intros n ch h wd Hs Hn _ _ Hacc.
    destruct (postprocess_4d w output n ch h wd Hs ltac:(lia) Hacc) as (img & H & _).
    now exists img.
Qed.

(** X9: with a model available, two uploads that decode, a network that
    returns a tensor of the shape of its first input, a PIL that takes
    three channels and a PNG encoder that works, the answer is 200, and
    the library calls after the load are, in order: decode and resize of
    the person upload, decode and resize of the clothing upload, one
    forward pass on two (1, 3, 768, 1024) tensors, one save of a
    1024 x 768 image. *)
Theorem tryon_succeeds w files st (o : option Generator) st1 pf cf sz1 px1 sz2 px2 :
  load_model w st = (Ok o, st1) ->
  files_getitem "person_image" files = Some pf ->
  files_getitem "clothing_image" files = Some cf ->
  Image_open w (content pf) = Ok (sz1, px1) ->
  Image_open w (content cf) = Ok (sz2, px2) ->
  (forall g a b, exists out, forward w g a b = Ok out /\ shape out = shape a) ->
  fromarray_accepts w 3 = true ->
  (forall img, exists png, save_png w img = Ok png) ->
  status (fst (generate_tryon w files st)) = 200
  /\ new_events st1 (snd (generate_tryon w files st))
     = [EvSavePng (1024, 768);
        EvForward [1; 3; 768; 1024] [1; 3; 768; 1024];
        EvResize (1024, 768); EvImageOpen (content cf);
        EvResize (1024, 768); EvImageOpen (content pf)].
Proof.
  intros Hl Hpf Hcf Ho1 Ho2 Hfw Hacc Hsave.
  rewrite generate_tryon_run, Hl, (field_absent_false _ _ _ _ _ Hpf Hcf).
  destruct (load_model_Ok _ _ _ _ Hl) as (g & Hg).
  unfold tryon_pipeline, request_file. rewrite Hpf, Hcf. cbn [bind lift].
  destruct (preprocess_image_decoded w (content pf) st1 sz1 px1 Ho1) as (pt & Hr1 & Hs1 & _).
  rewrite (bind_run_Ok _ _ _ _ _ Hr1).
  destruct (preprocess_image_decoded w (content cf)
              (mkState (model st1) (EvResize (1024, 768) :: EvImageOpen (content pf)
                                    :: log st1)) sz2 px2 Ho2)
    as (ct & Hr2 & Hs2 & _).
  rewrite (bind_run_Ok _ _ _ _ _ Hr2). cbn [model log].
  destruct (Hfw g pt ct) as (out & Hf & Hso). rewrite Hs1 in Hso.
  destruct (postprocess_4d w out 1 3 768 1024 Hso ltac:(discriminate) Hacc)
    as (img & Hpost & Hsz & _).
  destruct (Hsave img) as (png & Hpng).
  assert (Hcall : call_model w pt ct
                    (mkState (model st1)
                       (EvResize (1024, 768) :: EvImageOpen (content cf)
                        :: EvResize (1024, 768) :: EvImageOpen (content pf) :: log st1))
                  = (Ok out,
                     mkState (model st1)
                       (EvForward (shape pt) (shape ct)
                        :: EvResize (1024, 768) :: EvImageOpen (content cf)
                        :: EvResize (1024, 768) :: EvImageOpen (content pf) :: log st1))).
  { unfold call_model, bind, get_model, emit, lift. cbn. rewrite Hg, Hf. reflexivity. }
  rewrite (bind_run_Ok _ _ _ _ _ Hcall). rewrite Hpost. cbn [bind lift emit].
  rewrite Hpng. cbn [bind lift ret fst snd model log]. rewrite Hsz, Hs1, Hs2.
  split; [reflexivity|].
  apply new_events_app. cbn [log]. reflexivity.
Qed.

(** ** list_models *)

(** X10: [/api/models] answers 500 exactly when the checkpoint path
    exists and [os.listdir] raises on it; the body is then
    [{'error': str(e)}], without a [success] key.  Otherwise the status
    is 200.  In no case is the model touched or a model-loading call
    made. *)
Theorem list_models_error w st :
  (status (fst (list_models w st)) = 500 <->
     os_path_exists w (CHECKPOINT_DIR w) = true
     /\ exists e, os_listdir w (CHECKPOINT_DIR w) = Raise e)
  /\ (forall e,
        os_path_exists w (CHECKPOINT_DIR w) = true ->
        os_listdir w (CHECKPOINT_DIR w) = Raise e ->
        fst (list_models w st) = mkResponse 500 (JDict [("error", JStr (exn_str e))]))
  /\ (status (fst (list_models w st)) = 200 \/ status (fst (list_models w st)) = 500)
  /\ model (snd (list_models w st)) = model st
  /\ count is_model_load (new_events st (snd (list_models w st))) = 0.
Proof.
  assert (Hframe : model (snd (list_models w st)) = model st
                   /\ count is_model_load (new_events st (snd (list_models w st))) = 0).
  { unfold list_models.
    destruct (list_models_body w st) as [[r|e] st'] eqn:Hb; cbn [snd];
      (split; [exact (list_models_body_keeps_model w _ _ _ Hb)|]);
      destruct (proj1 (list_models_body_no_model_load w) _ _ _ Hb) as (evs & L & C);
      rewrite (new_events_app _ _ _ L); lia. }
  destruct Hframe as (Hm & Hc).
  assert (Hresp : fst (list_models w st)
                  = if os_path_exists w (CHECKPOINT_DIR w)
                    then match os_listdir w (CHECKPOINT_DIR w) with
                         | Ok names =>
                             jsonify [("available_models",
                                       JList (map JStr (filter (fun f => endswith f ".pkl")
                                                               names)));
                                      ("selected_model", JStr "gen.pkl")]
                         | Raise e => mkResponse 500 (JDict [("error", JStr (exn_str e))])
                         end
                    else jsonify [("available_models", JList []);
                                  ("selected_model", JStr "gen.pkl")]).
  { unfold list_models, list_models_body, bind, emit, lift, ret. cbn.
    destruct (os_path_exists w (CHECKPOINT_DIR w)); cbn; [|reflexivity].
    destruct (os_listdir w (CHECKPOINT_DIR w)); reflexivity. }
  rewrite Hresp.
  destruct (os_path_exists w (CHECKPOINT_DIR w)); cbn [status jsonify].
  - destruct (os_listdir w (CHECKPOINT_DIR w)) as [names|e0]; cbn [status jsonify].
    + repeat split; try assumption; try discriminate; auto.
      intros (_ & e & He). discriminate.
    + repeat split; try assumption; auto; [eauto | intros e _ [= ->]; reflexivity].
  - repeat split; try assumption; try discriminate; auto.
    intros (H & _). discriminate.
Qed.

(** ** The state of the bound model over the life of the process *)

Lemma load_model_consistent w st r st' :
  load_model w st = (r, st') -> model_consistent st -> model_consistent st'.
Proof.
  destruct (model st) as [g|] eqn:Hm.
  - rewrite (load_model_loaded w st g Hm). now intros [= <- <-].
  - intros Hrun _. revert Hrun. unfold model_consistent.
    unfold load_model, try_except, bind, get_model, emit, raise, ret, check, lift,
      model_method, set_model.
    cbn. rewrite Hm. cbn.
    destruct (os_path_exists w _); cbn; [|intros [= <- <-]; cbn; now rewrite Hm].
    destruct (Generator_init w 4 4 3); cbn; [intros [= <- <-]; cbn; now rewrite Hm|].
    destruct (torch_load w _ _); cbn;
      [|intros [= <- <-]; cbn; split; [reflexivity | discriminate]].
    destruct (load_state_dict_check w _); cbn;
      [intros [= <- <-]; cbn; split; [reflexivity | discriminate]|].
    destruct (module_to w _); cbn; intros [= <- <-]; cbn; split; auto.
Qed.

Lemma frame_consistent {A} (m : M St A) st (r : result A) st' :
  keeps_model m -> m st = (r, st') -> model_consistent st -> model_consistent st'.
Proof. intros Hk Hrun. unfold model_consistent. now rewrite (Hk _ _ _ Hrun). Qed.

Lemma handle_consistent w (r : Request) st :
  model_consistent st -> model_consistent (snd (handle w r st)).
Proof.
  intros Hinv. destruct r as [|files|]; cbn [handle].
  - exact Hinv.
  - rewrite generate_tryon_run.
    destruct (load_model w st) as [[o|e] st1] eqn:Hl;
      pose proof (load_model_consistent _ _ _ _ Hl Hinv) as H1; [|exact H1].
    destruct (negb _ || negb _); [exact H1|].
    destruct (tryon_pipeline w files st1) as [[resp|e] st2] eqn:Hp; cbn [snd];
      exact (frame_consistent _ _ _ _ (tryon_pipeline_keeps_model w files) Hp H1).
  - unfold list_models.
    destruct (list_models_body w st) as [[resp|e] st2] eqn:Hp; cbn [snd];
      exact (frame_consistent _ _ _ _ (list_models_body_keeps_model w) Hp Hinv).
Qed.

(** X14: at every point of the life of the process (the start-up load,
    then any requests, in whatever worlds), a bound model was constructed
    as [Generator(4, 4, 3)], and if it is in eval mode its weights have
    been loaded. *)
Theorem bound_model_consistent (w0 : @World F Checkpoint)
    (rs : list (@World F Checkpoint * Request)) (g : Generator) :
  model (snd (serve rs (startup w0 initial_state))) = Some g ->
  gen_args g = (4, 4, 3)
  /\ (training g = false -> exists checkpoint, state_dict g = Some checkpoint).
Proof.
  assert (H0 : model_consistent (startup w0 (@initial_state Checkpoint))).
  { unfold startup. destruct (load_model w0 initial_state) as [r st1] eqn:Hl.
    exact (load_model_consistent _ _ _ _ Hl I). }
  assert (Hserve : forall rs' st, model_consistent st ->
                                  model_consistent (snd (serve rs' st))).
  { induction rs' as [|[w r] rest IH]; intros st Hinv; cbn [serve]; [exact Hinv|].
    pose proof (handle_consistent w r st Hinv) as H1.
    destruct (handle w r st) as [resp st1]. cbn [snd] in H1.
    specialize (IH st1 H1). now destruct (serve rest st1). }
  pose proof (Hserve rs _ H0) as Hc. unfold model_consistent in Hc.
  intros Hg. rewrite Hg in Hc. destruct Hc as (Ha & Ht). split; [exact Ha|].
  intros Htr. specialize (Ht Htr). destruct (state_dict g) as [ck|]; [eauto|discriminate].
Qed.

(** X17: [load_model] never returns [None]: when it returns, its value is
    the model now bound to the global. *)
Theorem load_model_returns_bound_model w st (o : option Generator) st' :
  load_model w st = (Ok o, st') ->
  exists g, o = Some g /\ model st' = Some g.
Proof.
  destruct (model st) as [g|] eqn:Hm.
  - rewrite (load_model_loaded w st g Hm). intros [= <- <-]. eauto.
  - intros Hl. apply (load_model_unbound_iff w st o st' Hm) in Hl
      as (_ & _ & ck & _ & _ & _ & -> & ->). eauto.
Qed.

Lemma handle_loaded_log w (r : Request) st (g : Generator) :
  model st = Some g ->
  model (snd (handle w r st)) = Some g
  /\ exists evs, log (snd (handle w r st)) = evs ++ log st
                 /\ count is_model_load evs = 0.
Proof.
  intros Hm.
  assert (Hframe : forall A (m : M St A) r0 st',
             keeps_model m -> emits is_model_load 0 m -> m st = (r0, st') ->
             model st' = Some g
             /\ exists evs, log st' = evs ++ log st /\ count is_model_load evs = 0).
  { intros A m r0 st' Hk He Hrun. rewrite (Hk _ _ _ Hrun).
    destruct (He _ _ _ Hrun) as (evs & L & C).
    split; [assumption|]. exists evs. split; [assumption | lia]. }
  destruct r as [|files|]; cbn [handle].
  - cbn. split; [assumption|]. now exists [].
  - rewrite generate_tryon_run, (load_model_loaded w st g Hm).
    destruct (negb _ || negb _); [cbn; split; [assumption|]; now exists []|].
    destruct (tryon_pipeline w files st) as [[resp|e] st2] eqn:Hp; cbn [snd];
      exact (Hframe _ _ _ _ (tryon_pipeline_keeps_model w files)
               (tryon_pipeline_no_model_load w files) Hp).
  - unfold list_models.
    destruct (list_models_body w st) as [[resp|e] st2] eqn:Hp; cbn [snd];
      exact (Hframe _ _ _ _ (list_models_body_keeps_model w)
               (proj1 (list_models_body_no_model_load w)) Hp).
Qed.

(** X16: once a model is bound, it is the model after any sequence of
    requests, and in the whole sequence no model is constructed, no
    checkpoint read and no [to] or [eval] called. *)
Theorem bound_model_serves_all (rs : list (@World F Checkpoint * Request)) st
    (g : Generator) :
  model st = Some g ->
  model (snd (serve rs st)) = Some g
  /\ count is_model_load (new_events st (snd (serve rs st))) = 0.
Proof.
  intros Hm.
  assert (H : model (snd (serve rs st)) = Some g
              /\ exists evs, log (snd (serve rs st)) = evs ++ log st
                             /\ count is_model_load evs = 0).
  { revert st Hm. induction rs as [|[w r] rest IH]; intros st Hm; cbn [serve].
    - split; [assumption|]. now exists [].
    - destruct (handle_loaded_log w r st g Hm) as (Hm1 & e1 & L1 & C1).
      destruct (handle w r st) as [resp st1]. cbn [snd] in Hm1, L1.
      destruct (IH st1 Hm1) as (Hm2 & e2 & L2 & C2).
      destruct (serve rest st1) as [resps st2]. cbn [snd] in *.
      split; [assumption|]. exists (e2 ++ e1).
      rewrite L2, L1, app_assoc, count_app. split; [reflexivity | lia]. }
  destruct H as (Hg & evs & L & C). split; [assumption|].
  now rewrite (new_events_app _ _ _ L).
Qed.

(** X15: [/health] after start-up.  If the start-up load returned
    normally, ['model_loaded'] is true and the weights are loaded; if it
    failed because the checkpoint file is missing or the constructor
    raised, ['model_loaded'] is false. *)
Theorem health_after_startup (w0 w : @World F Checkpoint) :
  ((exists o st', load_model w0 initial_state = (Ok o, st')) ->
     json_field "model_loaded" (body (fst (health_check w (startup w0 initial_state))))
     = Some (JBool true)
     /\ weights_loaded (startup w0 initial_state) = true)
  /\ (os_path_exists w0 (os_path_join (CHECKPOINT_DIR w0) "gen.pkl") = false
      \/ Generator_init w0 4 4 3 <> None ->
      json_field "model_loaded" (body (fst (health_check w (startup w0 initial_state))))
      = Some (JBool false)).
Proof.
  split.
  - intros (o & st' & Hl). unfold startup. rewrite Hl. cbn [snd].
    destruct (load_model_unbound_Ok w0 initial_state o st' eq_refl Hl) as (Hm & Hw & _).
    split; [|exact Hw].
    apply (load_model_unbound_iff w0 initial_state o st' eq_refl) in Hl
      as (_ & _ & ck & _ & _ & _ & -> & ->). reflexivity.
  - intros Hfail.
    assert (Hnone : model (startup w0 (@initial_state Checkpoint)) = None).
    { unfold startup, load_model, try_except, bind, get_model, emit, raise, ret, check,
        lift, model_method, set_model. cbn.
      destruct (os_path_exists w0 _); cbn; [|reflexivity].
      destruct (Generator_init w0 4 4 3); cbn; [reflexivity|].
      destruct Hfail as [H|H]; [discriminate | now contradiction H]. }
    unfold health_check. cbn. now rewrite Hnone.
Qed.

End MoreProperties.

(** ** base64 *)

Lemma string_get_In (s : string) (k : nat) (c : ascii) :
  String.get k s = Some c -> In c (list_ascii_of_string s).
Proof.
  revert k. induction s as [|d s IH]; intros k; simpl; [discriminate|].
  destruct k as [|k]; [intros [= ->]; now left | intros H; right; eauto].
Qed.

Lemma b64_char_alphabet (n : N) :
  b64_char n = "="%char \/ In (b64_char n) (list_ascii_of_string b64_alphabet).
Proof.
  unfold b64_char. destruct (String.get (N.to_nat n) b64_alphabet) eqn:E; [|now left].
  right. exact (string_get_In _ _ _ E).
Qed.

(** X13: the base64 text of [n] bytes has [4 * ceil(n / 3)] characters,
    each a character of the base64 alphabet or the padding [=]. *)
Theorem b64encode_wellformed (bs : list Byte.byte) :
  String.length (b64encode bs) = 4 * ((length bs + 2) / 3)
  /\ forall c, In c (list_ascii_of_string (b64encode bs)) ->
               c = "="%char \/ In c (list_ascii_of_string b64_alphabet).
Proof.
  induction bs as [|a|a b|a b c rest (IHl & IHc)] using b64_ind.
  - split; [reflexivity | intros c []].
  - split; [reflexivity|]. cbn [b64encode list_ascii_of_string In].
    intros c [<-|[<-|[<-|[<-|[]]]]]; auto using b64_char_alphabet.
  - split; [reflexivity|]. cbn [b64encode list_ascii_of_string In].
    intros c [<-|[<-|[<-|[<-|[]]]]]; auto using b64_char_alphabet.
  - split.
    + cbn [b64encode String.length length]. rewrite IHl.
      replace (S (S (S (length rest))) + 2) with (length rest + 2 + 1 * 3) by lia.
      rewrite Nat.div_add by lia. lia.
    + cbn [b64encode list_ascii_of_string In].
      intros x [<-|[<-|[<-|[<-|Hin]]]]; auto using b64_char_alphabet.
Qed.

(** ** The further properties on the sample worlds *)

Lemma load_model_success_witness :
  model (@initial_state string) = None
  /\ load_model w_ok initial_state
     = (Ok (Some loaded_generator), mkState (Some loaded_generator) load_events).
Proof.
  split; [reflexivity|].
  apply (proj2 (load_model_success w_ok initial_state (Some loaded_generator)
                  (mkState (Some loaded_generator) load_events) eq_refl)).
  split; [reflexivity|]. split; [reflexivity|].
  exists "weights". repeat split.
Defined.

Lemma load_model_constructor_raises_witness :
  model (@initial_state string) = None
  /\ Generator_init w_no_import 4 4 3
     = Some (mkExn (OtherError "NameError") "name 'Generator' is not defined")
  /\ fst (load_model w_no_import initial_state)
     = Raise (mkExn (OtherError "NameError") "name 'Generator' is not defined")
  /\ model (snd (load_model w_no_import initial_state)) = None.
Proof.
  split; [reflexivity|]. split; [reflexivity|].
  destruct (load_model_constructor_raises w_no_import initial_state _
              eq_refl eq_refl eq_refl) as (H1 & H2 & _).
  split; assumption.
Defined.

Lemma tryon_rejected_request_loads_model_witness :
  files_contains "clothing_image" person_only = false
  /\ status (fst (generate_tryon w_ok person_only initial_state)) = 400
  /\ weights_loaded (snd (generate_tryon w_ok person_only initial_state)) = true.
Proof.
  split; [reflexivity|].
  assert (Hl : load_model w_ok initial_state
               = (Ok (Some loaded_generator), mkState (Some loaded_generator) load_events))
    by (vm_compute; reflexivity).
  destruct (tryon_rejected_request_loads_model w_ok person_only initial_state _ _
              eq_refl Hl (or_intror eq_refl)) as (Hrun & _ & Hw & _).
  rewrite Hrun. split; [reflexivity | exact Hw].
Defined.

Lemma tryon_lazy_load_persists_witness :
  status (fst (generate_tryon w_ok both_files initial_state)) <> 500
  /\ exists g : Generator,
       model (snd (generate_tryon w_ok both_files initial_state)) = Some g
       /\ model (snd (handle w_no_checkpoint (POST_api_tryon both_files)
                        (snd (generate_tryon w_ok both_files initial_state)))) = Some g.
Proof.
  assert (Hs : status (fst (generate_tryon w_ok both_files initial_state)) <> 500)
    by (vm_compute; discriminate).
  split; [exact Hs|].
  destruct (tryon_lazy_load_persists w_ok both_files initial_state Hs) as (g & Hg & Hnext).
  exists g. split; [exact Hg|].
  exact (proj1 (Hnext w_no_checkpoint (POST_api_tryon both_files))).
Defined.

Lemma tryon_undecodable_person_witness :
  Image_open w_ok []
  = Raise (mkExn (OtherError "UnidentifiedImageError") "cannot identify image file")
  /\ fst (generate_tryon w_ok empty_person loaded_state)
     = mkResponse 500
         (JDict [("success", JBool false);
                 ("error", JStr "Error preprocessing image: cannot identify image file")])
  /\ new_events loaded_state (snd (generate_tryon w_ok empty_person loaded_state))
     = [EvImageOpen []].
Proof.
  split; [reflexivity|].
  exact (tryon_undecodable_person w_ok empty_person loaded_state
           (Some loaded_generator) loaded_state
           (mkFile "person.png" []) (mkFile "cloth.png" [Byte.x03]) _
           eq_refl eq_refl eq_refl eq_refl).
Defined.

Lemma tryon_undecodable_clothing_witness :
  Image_open w_ok []
  = Raise (mkExn (OtherError "UnidentifiedImageError") "cannot identify image file")
  /\ fst (generate_tryon w_ok empty_clothing loaded_state)
     = mkResponse 500
         (JDict [("success", JBool false);
                 ("error", JStr "Error preprocessing image: cannot identify image file")])
  /\ new_events loaded_state (snd (generate_tryon w_ok empty_clothing loaded_state))
     = [EvImageOpen []; EvResize (1024, 768); EvImageOpen [Byte.x01; Byte.x02]].
Proof.
  split; [reflexivity|].
  exact (tryon_undecodable_clothing w_ok empty_clothing loaded_state
           (Some loaded_generator) loaded_state
           (mkFile "person.png" [Byte.x01; Byte.x02]) (mkFile "cloth.png" []) _ _ _
           eq_refl eq_refl eq_refl eq_refl eq_refl).
Defined.


Lemma tryon_succeeds_witness :
  fromarray_accepts w_ok 3 = true
  /\ status (fst (generate_tryon w_ok both_files loaded_state)) = 200
  /\ new_events loaded_state (snd (generate_tryon w_ok both_files loaded_state))
     = [EvSavePng (1024, 768);
        EvForward [1; 3; 768; 1024] [1; 3; 768; 1024];
        EvResize (1024, 768); EvImageOpen [Byte.x03];
        EvResize (1024, 768); EvImageOpen [Byte.x01; Byte.x02]].
Proof.
  split; [reflexivity|].
  refine (tryon_succeeds w_ok both_files loaded_state (Some loaded_generator)
            loaded_state (mkFile "person.png" [Byte.x01; Byte.x02])
            (mkFile "cloth.png" [Byte.x03]) _ _ _ _
            eq_refl eq_refl eq_refl eq_refl eq_refl _ eq_refl _).
  - intros g a b. exists a. split; reflexivity.
  - intros img. eexists. reflexivity.
Defined.

Lemma postprocess_accepts_witness :
  shape small_output = [2; 3; 2; 2]
  /\ fromarray_accepts w_ok 3 = true
  /\ exists img, postprocess w_ok small_output = Ok img.
Proof.
  split; [reflexivity|]. split; [reflexivity|].
  apply (proj2 (postprocess_accepts w_ok small_output) 2 3 2 2); try reflexivity; lia.
Defined.

Lemma list_models_error_witness :
  os_path_exists w_unlistable (CHECKPOINT_DIR w_unlistable) = true
  /\ os_listdir w_unlistable (CHECKPOINT_DIR w_unlistable)
     = Raise (mkExn (OtherError "NotADirectoryError") "[Errno 20] Not a directory")
  /\ fst (list_models w_unlistable initial_state)
     = mkResponse 500 (JDict [("error", JStr "[Errno 20] Not a directory")]).
Proof.
  split; [reflexivity|]. split; [reflexivity|].
  destruct (list_models_error w_unlistable initial_state) as (_ & Herr & _).
  exact (Herr _ eq_refl eq_refl).
Defined.

Lemma b64encode_wellformed_witness :
  In "T"%char (list_ascii_of_string (b64encode [Byte.x4d; Byte.x61]))
  /\ String.length (b64encode [Byte.x4d; Byte.x61]) = 4
  /\ ("T"%char = "="%char \/ In "T"%char (list_ascii_of_string b64_alphabet)).
Proof.
  destruct (b64encode_wellformed [Byte.x4d; Byte.x61]) as (Hlen & Hchars).
  split; [left; reflexivity|]. split; [exact Hlen|].
  apply Hchars. left. reflexivity.
Defined.

Lemma bound_model_consistent_witness :
  model (snd (serve [(w_ok, POST_api_tryon person_only)]
                (startup w_no_checkpoint initial_state))) = Some loaded_generator
  /\ gen_args loaded_generator = (4, 4, 3)
  /\ (training loaded_generator = false ->
      exists checkpoint, state_dict loaded_generator = Some checkpoint).
Proof.
  split; [reflexivity|].
  exact (bound_model_consistent w_no_checkpoint [(w_ok, POST_api_tryon person_only)]
           loaded_generator eq_refl).
Defined.

Lemma health_after_startup_witness :
  (exists o st', load_model w_ok (@initial_state string) = (Ok o, st'))
  /\ json_field "model_loaded"
       (body (fst (health_check w_ok (startup w_ok initial_state))))
     = Some (JBool true)
  /\ json_field "model_loaded"
       (body (fst (health_check w_ok (startup w_no_checkpoint initial_state))))
     = Some (JBool false).
Proof.
  assert (Hl : exists o st', load_model w_ok (@initial_state string) = (Ok o, st'))
    by (eexists; eexists; reflexivity).
  split; [exact Hl|].
  split.
  - exact (proj1 (proj1 (health_after_startup w_ok w_ok) Hl)).
  - exact (proj2 (health_after_startup w_no_checkpoint w_ok) (or_introl eq_refl)).
Defined.

Lemma bound_model_serves_all_witness :
  model loaded_state = Some loaded_generator
  /\ model (snd (serve [(w_ok, POST_api_tryon both_files);
                        (w_corrupt, GET_api_models);
                        (w_no_checkpoint, POST_api_tryon person_only)]
                  loaded_state)) = Some loaded_generator.
Proof.
  split; [reflexivity|].
  exact (proj1 (bound_model_serves_all _ loaded_state loaded_generator eq_refl)).
Defined.

Lemma load_model_returns_bound_model_witness :
  load_model w_ok initial_state
  = (Ok (Some loaded_generator), mkState (Some loaded_generator) load_events)
  /\ exists g, Some loaded_generator = Some g
               /\ model (mkState (Some loaded_generator) load_events) = Some g.
Proof.
  assert (Hl : load_model w_ok initial_state
               = (Ok (Some loaded_generator), mkState (Some loaded_generator) load_events))
    by (vm_compute; reflexivity).
  split; [exact Hl|].
  exact (load_model_returns_bound_model w_ok initial_state _ _ Hl).
Defined.
